(** * Messenger data-access layer over a wide-column store

    A shallow embedding of [app/models/cassandra_models.py],
    [app/controllers/*.py] and of the part of [app/db/cassandra_client.py]
    and [scripts/setup_db.py] they rely on.

    - Identifiers are Python integers, modelled as [Z] (the 64-bit range
      of a [bigint] column is not modelled); a message id is a uuid,
      modelled by its 128-bit value as [N].
    - A Python [datetime] has microseconds; the store's [timestamp] type has
      milliseconds. An [instant] is a Python datetime, a [datetime] is a
      timestamp as the store keeps it and as the driver reads it back; the
      driver encodes a datetime parameter by dropping what is below the
      millisecond ([int] of the milliseconds; the rounding of the floating
      point sum it is applied to is not modelled).
    - The four tables of [create_tables] are finite maps from the primary
      key to the remaining columns; a [SELECT] restricted to one partition
      returns its rows in the clustering order declared for the table.
    - [cassandra_client.execute] either raises what the driver raises or
      runs the statement; which of the two happens at the n-th statement is
      read from the world, as are the clock and the uuid generator. *)

From stdpp Require Import gmap strings list fin_maps sorting pretty.
From Stdlib Require Import ZArith Lia.

Local Open Scope string_scope.
Local Open Scope list_scope.
Local Open Scope Z_scope.

(** ** Values that cross the storage boundary *)

Definition datetime := Z.

(** A Python [datetime], split the way the driver splits it: [whole_ms]
    is its distance from the epoch in milliseconds, rounded toward zero as
    [int] does, and [sub_us] the microseconds beyond that (taken modulo
    1000, away from the epoch). *)
Record instant := Instant {
  whole_ms : Z;
  sub_us : Z
}.

Definition micros_since_epoch (t : instant) : Z :=
  1000 * whole_ms t
  + (if decide (0 < whole_ms t) then sub_us t `mod` 1000
     else if decide (whole_ms t < 0) then - (sub_us t `mod` 1000)
     else sub_us t `rem` 1000).

(** How the driver binds a datetime parameter ([cql_encode_datetime]):
    whole milliseconds since the epoch. *)
Definition cql_encode_datetime (t : instant) : datetime := whole_ms t.

(** The datetime the driver builds when it reads a timestamp column. *)
Definition from_timestamp (ts : datetime) : instant := Instant ts 0.
Definition uuid := N.

(** The spec's classification of what the storage layer may raise. *)
Inductive error_kind := NotFound | TransientStorage | Conflict | InvalidInput.

(** Python exceptions that occur in the modelled code. *)
Inductive exn :=
| DriverError (kind : error_kind) (msg : string)
| AttributeError (msg : string)
| ValidationError (msg : string)
| HTTPException (status_code : Z) (detail : string).

Definition HTTP_404_NOT_FOUND : Z := 404.
Definition HTTP_500_INTERNAL_SERVER_ERROR : Z := 500.

(** What the Python runtime provides: [datetime.isoformat], [str] on a
    uuid and [str] on an exception. *)
Class Runtime := {
  datetime_isoformat : instant -> string;
  str_uuid : uuid -> string;
  str_exn : exn -> string
}.

(** [row["created_at"].isoformat()]: the rendering of a timestamp read
    from the store. *)
Definition isoformat `{Runtime} (ts : datetime) : string :=
  datetime_isoformat (from_timestamp ts).

(** ** Tables ([scripts/setup_db.py], [create_tables]) *)

(** [messages_by_conversation]:
    PRIMARY KEY (conversation_id, created_at, message_id). *)
Record message_cols := MessageCols {
  mc_sender_id : Z;
  mc_receiver_id : Z;
  mc_content : string
}.

(** [conversations_by_user]:
    PRIMARY KEY (user_id, last_message_at, conversation_id). *)
Record summary_cols := SummaryCols {
  sc_other_user_id : Z;
  sc_last_message_content : string
}.

(** [conversation_metadata]: PRIMARY KEY (conversation_id). Every column
    outside the key may be null: [INSERT] and [UPDATE] set different
    columns. *)
Record metadata_cols := MetadataCols {
  md_user1_id : option Z;
  md_user2_id : option Z;
  md_created_at : option datetime;
  md_last_message_at : option datetime;
  md_last_message_content : option string
}.

Record db := Db {
  messages_by_conversation : gmap (Z * datetime * uuid) message_cols;
  conversations_by_user : gmap (Z * datetime * Z) summary_cols;
  conversation_metadata : gmap Z metadata_cols;
  user_conversations_lookup : gmap (Z * Z) Z
}.

Definition empty_db : db := Db ∅ ∅ ∅ ∅.

(** Rows as [dict_factory] hands them to the models. *)
Record message_row := MessageRow {
  mr_conversation_id : Z;
  mr_created_at : datetime;
  mr_message_id : uuid;
  mr_sender_id : Z;
  mr_receiver_id : Z;
  mr_content : string
}.

Record summary_row := SummaryRow {
  sr_user_id : Z;
  sr_last_message_at : datetime;
  sr_conversation_id : Z;
  sr_other_user_id : Z;
  sr_last_message_content : string
}.

Record metadata_row := MetadataRow {
  mdr_conversation_id : Z;
  mdr_cols : metadata_cols
}.

Definition message_row_of (kv : Z * datetime * uuid * message_cols) : message_row :=
  let '((cid, ts, mid), c) := kv in
  MessageRow cid ts mid (mc_sender_id c) (mc_receiver_id c) (mc_content c).

Definition summary_row_of (kv : Z * datetime * Z * summary_cols) : summary_row :=
  let '((uid, ts, cid), c) := kv in
  SummaryRow uid ts cid (sc_other_user_id c) (sc_last_message_content c).

(** CLUSTERING ORDER BY (created_at DESC, message_id DESC). *)
Definition message_clustering (r1 r2 : message_row) : Prop :=
  mr_created_at r2 < mr_created_at r1
  ∨ (mr_created_at r1 = mr_created_at r2 ∧ (mr_message_id r2 ≤ mr_message_id r1)%N).

(** CLUSTERING ORDER BY (last_message_at DESC, conversation_id DESC). *)
Definition summary_clustering (r1 r2 : summary_row) : Prop :=
  sr_last_message_at r2 < sr_last_message_at r1
  ∨ (sr_last_message_at r1 = sr_last_message_at r2
     ∧ sr_conversation_id r2 ≤ sr_conversation_id r1).

#[global] Instance message_clustering_dec : RelDecision message_clustering.
Proof. intros r1 r2. unfold message_clustering. apply _. Defined.

#[global] Instance summary_clustering_dec : RelDecision summary_clustering.
Proof. intros r1 r2. unfold summary_clustering. apply _. Defined.

(** The rows of one partition, in clustering order. *)
Definition message_partition (d : db) (cid : Z) : list message_row :=
  merge_sort message_clustering
    (filter (λ r, mr_conversation_id r = cid)
       (message_row_of <$> map_to_list (messages_by_conversation d))).

Definition summary_partition (d : db) (uid : Z) : list summary_row :=
  merge_sort summary_clustering
    (filter (λ r, sr_user_id r = uid)
       (summary_row_of <$> map_to_list (conversations_by_user d))).

(** ** Statements issued by the models

    A statement is recorded with its parameters as the driver sends them: a
    timestamp is in whole milliseconds. *)

Inductive query :=
| InsertMessage (cid : Z) (ts : datetime) (mid : uuid) (sender receiver : Z)
    (content : string)
| InsertSummary (uid : Z) (ts : datetime) (cid other : Z) (content : string)
| UpdateMetadata (ts : datetime) (content : string) (cid : Z)
| SelectMessages (cid limit : Z)
| SelectMessagesBefore (cid : Z) (before : datetime) (limit : Z)
| SelectSummaries (uid limit : Z)
| SelectMetadata (cid : Z)
| SelectLookup (u1 u2 : Z)
| InsertLookup (u1 u2 cid : Z)
| InsertMetadata (cid u1 u2 : Z) (ts : datetime).

#[global] Instance query_eq_dec : EqDecision query.
Proof. solve_decision. Defined.

(** What [execute] returns for each statement: the list of rows of a
    [SELECT], the empty list for a write. *)
Definition rows_of (q : query) : Type :=
  match q with
  | SelectMessages _ _ | SelectMessagesBefore _ _ _ => list message_row
  | SelectSummaries _ _ => list summary_row
  | SelectMetadata _ => list metadata_row
  | SelectLookup _ _ => list Z
  | _ => unit
  end.

(** [LIMIT n]: the store rejects a limit that is not positive. *)
Definition limit_rows {A} (n : Z) (l : list A) : exn + list A :=
  if decide (0 < n) then inr (take (Z.to_nat n) l)
  else inl (DriverError InvalidInput "LIMIT must be strictly positive").

Definition set_messages (d : db) m : db :=
  Db m (conversations_by_user d) (conversation_metadata d) (user_conversations_lookup d).
Definition set_summaries (d : db) m : db :=
  Db (messages_by_conversation d) m (conversation_metadata d) (user_conversations_lookup d).
Definition set_metadata (d : db) m : db :=
  Db (messages_by_conversation d) (conversations_by_user d) m (user_conversations_lookup d).
Definition set_lookup (d : db) m : db :=
  Db (messages_by_conversation d) (conversations_by_user d) (conversation_metadata d) m.

(** An [INSERT] into [conversation_metadata] names five columns and leaves
    [last_message_content] as it is; an [UPDATE] sets the two last-message
    columns and creates the row when there is none. *)
Definition insert_metadata_cols (old : option metadata_cols) (u1 u2 : Z)
    (ts : datetime) : metadata_cols :=
  MetadataCols (Some u1) (Some u2) (Some ts) None
    (old ≫= md_last_message_content).

Definition update_metadata_cols (old : option metadata_cols) (ts : datetime)
    (content : string) : metadata_cols :=
  MetadataCols (old ≫= md_user1_id) (old ≫= md_user2_id) (old ≫= md_created_at)
    (Some ts) (Some content).

Definition run_query (q : query) (d : db) : (exn + rows_of q) * db :=
  match q return (exn + rows_of q) * db with
  | InsertMessage cid ts mid sender receiver content =>
      (inr tt, set_messages d
         (<[(cid, ts, mid) := MessageCols sender receiver content]>
            (messages_by_conversation d)))
  | InsertSummary uid ts cid other content =>
      (inr tt, set_summaries d
         (<[(uid, ts, cid) := SummaryCols other content]> (conversations_by_user d)))
  | UpdateMetadata ts content cid =>
      (inr tt, set_metadata d
         (<[cid := update_metadata_cols (conversation_metadata d !! cid) ts content]>
            (conversation_metadata d)))
  | SelectMessages cid limit =>
      (limit_rows limit (message_partition d cid), d)
  | SelectMessagesBefore cid before limit =>
      (limit_rows limit
         (filter (λ r, mr_created_at r < before) (message_partition d cid)), d)
  | SelectSummaries uid limit =>
      (limit_rows limit (summary_partition d uid), d)
  | SelectMetadata cid =>
      (inr (match conversation_metadata d !! cid with
            | Some c => [MetadataRow cid c]
            | None => []
            end), d)
  | SelectLookup u1 u2 =>
      (inr (match user_conversations_lookup d !! (u1, u2) with
            | Some cid => [cid]
            | None => []
            end), d)
  | InsertLookup u1 u2 cid =>
      (inr tt, set_lookup d (<[(u1, u2) := cid]> (user_conversations_lookup d)))
  | InsertMetadata cid u1 u2 ts =>
      (inr tt, set_metadata d
         (<[cid := insert_metadata_cols (conversation_metadata d !! cid) u1 u2 ts]>
            (conversation_metadata d)))
  end.

(** ** The world and the monad of the models *)

Record world := World {
  tables : db;
  clock : nat -> datetime;      (* successive readings of the wall clock: milliseconds *)
  micros : nat -> Z;             (* and the microseconds below the millisecond *)
  ticks : nat;                   (* readings taken so far *)
  uuids : nat -> uuid;           (* successive results of uuid.uuid4() *)
  drawn : nat;                   (* uuids drawn so far *)
  faults : nat -> option exn;    (* what the n-th call of execute raises *)
  log : list query               (* statements handed to execute so far *)
}.

Definition M (A : Type) : Type := world -> (exn + A) * world.

Definition ret {A} (a : A) : M A := fun w => (inr a, w).
Definition raise {A} (e : exn) : M A := fun w => (inl e, w).
Definition bind {A B} (c : M A) (k : A -> M B) : M B :=
  fun w => match c w with
           | (inr a, w') => k a w'
           | (inl e, w') => (inl e, w')
           end.
(** [try: c except Exception as e: h e] *)
Definition try_except {A} (c : M A) (h : exn -> M A) : M A :=
  fun w => match c w with
           | (inr a, w') => (inr a, w')
           | (inl e, w') => h e w'
           end.

Declare Scope py_scope.
Delimit Scope py_scope with py.
Notation "'let*' x ':=' c 'in' k" := (bind c (fun x => k))
  (at level 10, x binder, c at level 100, k at level 200) : py_scope.
Local Open Scope py_scope.

(** [datetime.utcnow()] and [int(time.time() * 1000)]: one reading each. *)
Definition utcnow : M instant :=
  fun w => (inr (Instant (clock w (ticks w)) (micros w (ticks w))),
            World (tables w) (clock w) (micros w) (S (ticks w)) (uuids w) (drawn w)
              (faults w) (log w)).
Definition time_ms : M Z :=
  fun w => (inr (clock w (ticks w)),
            World (tables w) (clock w) (micros w) (S (ticks w)) (uuids w) (drawn w)
              (faults w) (log w)).

(** [uuid.uuid4()] *)
Definition uuid4 : M uuid :=
  fun w => (inr (uuids w (drawn w)),
            World (tables w) (clock w) (micros w) (ticks w) (uuids w) (S (drawn w))
              (faults w) (log w)).

(** The world after a statement was handed to [execute] and left the
    tables as [d]. *)
Definition logged (w : world) (q : query) (d : db) : world :=
  World d (clock w) (micros w) (ticks w) (uuids w) (drawn w) (faults w) (log w ++ [q]).

(** [CassandraClient.execute]: the statement is logged; the driver either
    raises (no host, timeout, invalid request, ...) or runs it. *)
Definition execute (q : query) : M (rows_of q) :=
  fun w =>
    match faults w (length (log w)) with
    | Some e => (inl e, logged w q (tables w))
    | None => (fst (run_query q (tables w)), logged w q (snd (run_query q (tables w))))
    end.

(** ** [app/models/cassandra_models.py] *)

Module ConversationModel.

(** The dicts built by [get_user_conversations] and [get_conversation]. *)
Record summary_dict := SummaryDict {
  s_conversation_id : Z;
  s_other_user_id : Z;
  s_last_updated : string;
  s_last_message : string
}.

Record conversation_dict := ConversationDict {
  conversation_id : Z;
  participant_ids : list (option Z);
  created_at : string;
  last_updated : string
}.

Section with_runtime.
Context `{Runtime}.

Definition summary_dict_of (row : summary_row) : summary_dict :=
  SummaryDict (sr_conversation_id row) (sr_other_user_id row)
    (isoformat (sr_last_message_at row)) (sr_last_message_content row).

Definition get_user_conversations (user_id limit : Z)
    : M (list summary_dict * bool) :=
  let* rows := execute (SelectSummaries user_id limit) in
  let conversations := summary_dict_of <$> rows in
  let has_more := bool_decide (Z.of_nat (length conversations) = limit) in
  ret (conversations, has_more).

(** [row["created_at"].isoformat()] raises when the column is null. *)
Definition get_conversation (conversation_id : Z)
    : M (option conversation_dict) :=
  let* rows := execute (SelectMetadata conversation_id) in
  match rows with
  | [] => ret None
  | row :: _ =>
      let c := mdr_cols row in
      match md_created_at c with
      | None =>
          raise (AttributeError "'NoneType' object has no attribute 'isoformat'")
      | Some created =>
          ret (Some (ConversationDict
                 (mdr_conversation_id row)
                 [md_user1_id c; md_user2_id c]
                 (isoformat created)
                 (match md_last_message_at c with
                  | Some last => isoformat last
                  | None => isoformat created
                  end)))
      end
  end.

Definition create_or_get_conversation (user1_id user2_id : Z) : M Z :=
  let '(user1_id, user2_id) :=
    if decide (user1_id > user2_id) then (user2_id, user1_id)
    else (user1_id, user2_id) in
  let* rows := execute (SelectLookup user1_id user2_id) in
  match rows with
  | found :: _ => ret found
  | [] =>
      let* timestamp := utcnow in
      let* now_ms := time_ms in
      let conversation_id := now_ms + user1_id * 1000 + user2_id `mod` 1000 in
      let* _ := execute (InsertLookup user1_id user2_id conversation_id) in
      let* _ := execute (InsertMetadata conversation_id user1_id user2_id
                           (cql_encode_datetime timestamp)) in
      ret conversation_id
  end.
End with_runtime.
End ConversationModel.

Module MessageModel.

Record message_dict := MessageDict {
  message_id : string;
  conversation_id : Z;
  sender_id : Z;
  receiver_id : Z;
  content : string;
  timestamp : string
}.

Section with_runtime.
Context `{Runtime}.

Definition message_dict_of (row : message_row) : message_dict :=
  MessageDict (str_uuid (mr_message_id row)) (mr_conversation_id row)
    (mr_sender_id row) (mr_receiver_id row) (mr_content row)
    (isoformat (mr_created_at row)).

Definition create_message (sender_id receiver_id : Z) (content : string)
    (conversation_id : option Z) : M message_dict :=
  let* timestamp := utcnow in
  let* message_id := uuid4 in
  let* conversation_id :=
    match conversation_id with
    | None => ConversationModel.create_or_get_conversation sender_id receiver_id
    | Some c => ret c
    end in
  let* _ := execute (InsertMessage conversation_id (cql_encode_datetime timestamp)
                       message_id sender_id receiver_id content) in
  let* _ := execute (InsertSummary sender_id (cql_encode_datetime timestamp)
                       conversation_id receiver_id content) in
  let* _ := execute (InsertSummary receiver_id (cql_encode_datetime timestamp)
                       conversation_id sender_id content) in
  let* _ := execute (UpdateMetadata (cql_encode_datetime timestamp) content
                       conversation_id) in
  ret (MessageDict (str_uuid message_id) conversation_id sender_id receiver_id
         content (datetime_isoformat timestamp)).

(** [list(rows)[offset:] if offset > 0 else list(rows)] *)
Definition get_conversation_messages (conversation_id limit offset : Z)
    : M (list message_dict) :=
  let* rows := execute (SelectMessages conversation_id (limit + offset)) in
  let messages :=
    if decide (offset > 0) then drop (Z.to_nat offset) rows else rows in
  ret (message_dict_of <$> messages).

Definition get_messages_before_timestamp (conversation_id : Z)
    (before_timestamp : instant) (limit : Z) : M (list message_dict) :=
  let* rows := execute (SelectMessagesBefore conversation_id
                          (cql_encode_datetime before_timestamp) limit) in
  ret (message_dict_of <$> rows).
End with_runtime.
End MessageModel.

(** ** [app/schemas] *)

Module Schemas.
Record MessageCreate := {
  mcr_content : string;
  mcr_sender_id : Z;
  mcr_receiver_id : Z
}.

Record MessageResponse := {
  message_id : string;
  sender_id : Z;
  receiver_id : Z;
  conversation_id : Z;
  content : string;
  timestamp : string
}.

Record PaginatedMessageResponse := {
  messages : list MessageResponse;
  pm_has_more : bool
}.

Record ConversationResponse := {
  c_conversation_id : Z;
  participant_ids : list Z;
  created_at : string;
  last_updated : string
}.

Record ConversationListItem := {
  li_conversation_id : Z;
  other_user_id : Z;
  li_last_updated : string;
  last_message : string
}.

Record PaginatedConversationResponse := {
  conversations : list ConversationListItem;
  pc_has_more : bool
}.

(** [participant_ids: List[int]]: validation refuses a null entry. *)
Fixpoint validate_int_list (l : list (option Z)) : M (list Z) :=
  match l with
  | [] => ret []
  | Some i :: l => let* r := validate_int_list l in ret (i :: r)
  | None :: _ => raise (ValidationError "none is not an allowed value")
  end.

Definition make_MessageResponse (msg : MessageModel.message_dict) : MessageResponse :=
  {| message_id := MessageModel.message_id msg;
     sender_id := MessageModel.sender_id msg;
     receiver_id := MessageModel.receiver_id msg;
     conversation_id := MessageModel.conversation_id msg;
     content := MessageModel.content msg;
     timestamp := MessageModel.timestamp msg |}.

Definition make_ConversationListItem (conv : ConversationModel.summary_dict)
    : ConversationListItem :=
  {| li_conversation_id := ConversationModel.s_conversation_id conv;
     other_user_id := ConversationModel.s_other_user_id conv;
     li_last_updated := ConversationModel.s_last_updated conv;
     last_message := ConversationModel.s_last_message conv |}.

Definition make_ConversationResponse (conversation : ConversationModel.conversation_dict)
    : M ConversationResponse :=
  let* ids := validate_int_list (ConversationModel.participant_ids conversation) in
  ret {| c_conversation_id := ConversationModel.conversation_id conversation;
         participant_ids := ids;
         created_at := ConversationModel.created_at conversation;
         last_updated := ConversationModel.last_updated conversation |}.
End Schemas.

(** ** [app/controllers/message_controller.py] *)

Module MessageController.
Import Schemas.
Section with_runtime.
Context `{Runtime}.

Definition send_message (message_data : MessageCreate) : M MessageResponse :=
  try_except
    (let sender_id := mcr_sender_id message_data in
     let receiver_id := mcr_receiver_id message_data in
     let* message :=
       MessageModel.create_message sender_id receiver_id
         (mcr_content message_data) None in
     ret (make_MessageResponse message))
    (fun e => raise (HTTPException HTTP_500_INTERNAL_SERVER_ERROR
                       ("Failed to send message: " ++ str_exn e))).

Definition get_conversation_messages (conversation_id page limit : Z)
    : M PaginatedMessageResponse :=
  try_except
    (let offset := (page - 1) * limit in
     let* messages :=
       MessageModel.get_conversation_messages conversation_id limit offset in
     let has_more := bool_decide (Z.of_nat (length messages) = limit) in
     ret {| messages := make_MessageResponse <$> messages;
            pm_has_more := has_more |})
    (fun e => raise (HTTPException HTTP_500_INTERNAL_SERVER_ERROR
                       ("Failed to get messages: " ++ str_exn e))).

Definition get_messages_before_timestamp (conversation_id : Z)
    (before_timestamp : instant) (page limit : Z) : M PaginatedMessageResponse :=
  try_except
    (let* messages :=
       MessageModel.get_messages_before_timestamp conversation_id
         before_timestamp limit in
     let has_more := bool_decide (Z.of_nat (length messages) = limit) in
     ret {| messages := make_MessageResponse <$> messages;
            pm_has_more := has_more |})
    (fun e => raise (HTTPException HTTP_500_INTERNAL_SERVER_ERROR
                       ("Failed to get messages: " ++ str_exn e))).
End with_runtime.
End MessageController.

(** ** [app/controllers/conversation_controller.py] *)

Module ConversationController.
Import Schemas.
Section with_runtime.
Context `{Runtime}.

Definition get_user_conversations (user_id page limit : Z)
    : M PaginatedConversationResponse :=
  try_except
    (let* '(conversations, has_more) :=
       ConversationModel.get_user_conversations user_id limit in
     ret {| conversations := make_ConversationListItem <$> conversations;
            pc_has_more := has_more |})
    (fun e => raise (HTTPException HTTP_500_INTERNAL_SERVER_ERROR
                       ("Failed to get conversations: " ++ str_exn e))).

(** [except HTTPException: raise] lets the 404 through; anything else
    becomes a 500. *)
Definition get_conversation (conversation_id : Z) : M ConversationResponse :=
  try_except
    (let* conversation := ConversationModel.get_conversation conversation_id in
     match conversation with
     | None => raise (HTTPException HTTP_404_NOT_FOUND "Conversation not found")
     | Some conversation => make_ConversationResponse conversation
     end)
    (fun e =>
       match e with
       | HTTPException _ _ => raise e
       | _ => raise (HTTPException HTTP_500_INTERNAL_SERVER_ERROR
                       ("Failed to get conversation: " ++ str_exn e))
       end).

(** Here the only handler is [except Exception], which also catches the
    404 raised inside the [try]. *)
Definition create_or_get_conversation (user1_id user2_id : Z)
    : M ConversationResponse :=
  try_except
    (let* conversation_id :=
       ConversationModel.create_or_get_conversation user1_id user2_id in
     let* conversation := ConversationModel.get_conversation conversation_id in
     match conversation with
     | None => raise (HTTPException HTTP_404_NOT_FOUND
                        "Failed to retrieve conversation after creation")
     | Some conversation => make_ConversationResponse conversation
     end)
    (fun e => raise (HTTPException HTTP_500_INTERNAL_SERVER_ERROR
                       ("Failed to create conversation: " ++ str_exn e))).
End with_runtime.
End ConversationController.

(** ** A concrete runtime and concrete worlds, for running the model *)

Definition sample_runtime : Runtime := {|
  datetime_isoformat t :=
    ("T" ++ pretty (whole_ms t)
     ++ if decide (sub_us t `mod` 1000 = 0) then ""
        else "." ++ pretty (sub_us t `mod` 1000))%string;
  str_uuid u := pretty u;
  str_exn e :=
    match e with
    | DriverError _ msg | AttributeError msg | ValidationError msg => msg
    | HTTPException code detail => (pretty code ++ ": " ++ detail)%string
    end
|}.

Definition no_faults : nat -> option exn := fun _ => None.

(** A fresh store; the clock advances by [step] milliseconds per reading. *)
Definition fresh_world (start step : Z) (faults : nat -> option exn) : world :=
  World empty_db (fun n => start + step * Z.of_nat n) (fun _ => 0) 0 (fun n => N.of_nat n) 0
    faults [].

Definition run {A} (c : M A) (w : world) : world := snd (c w).
Definition result {A} (c : M A) (w : world) : exn + A := fst (c w).

(** ** Vocabulary of the properties *)

(** The statements issued since the log was [before]. *)
Definition issued_since (before : list query) (w : world) : list query :=
  drop (length before) (log w).



Definition lookup_writes (l : list query) : list query :=
  omap (fun q => match q with InsertLookup _ _ _ => Some q | _ => None end) l.

(** How often the metadata row of [cid] was read. *)
Definition metadata_reads (cid : Z) (l : list query) : nat :=
  length (filter (fun q => q = SelectMetadata cid) l).

(** The summary rows a user holds for one conversation, and all the
    summary rows of a conversation. *)
Definition summary_rows_of (d : db) (uid cid : Z) : gmap (Z * datetime * Z) summary_cols :=
  filter (fun kv => kv.1.1.1 = uid /\ kv.1.2 = cid) (conversations_by_user d).

Definition summary_count (d : db) (uid cid : Z) : nat := size (summary_rows_of d uid cid).

Definition conversation_summary_count (d : db) (cid : Z) : nat :=
  size (filter (fun kv => kv.1.2 = cid) (conversations_by_user d)).

(** The canonical pair: smaller id first. *)
Definition canonical (a b : Z) : Z * Z := if decide (a > b) then (b, a) else (a, b).

(** [row] is a row of the message table, in the partition of [cid]. *)
Definition stored_message (d : db) (cid : Z) (row : message_row) : Prop :=
  mr_conversation_id row = cid
  /\ messages_by_conversation d !! (cid, mr_created_at row, mr_message_id row)
     = Some (MessageCols (mr_sender_id row) (mr_receiver_id row) (mr_content row)).

(** The rows behind a page of messages, as [get_conversation_messages] of
    the model selects them. *)
Definition message_page (d : db) (cid limit offset : Z) : list message_row :=
  let rows := take (Z.to_nat (limit + offset)) (message_partition d cid) in
  if decide (offset > 0) then drop (Z.to_nat offset) rows else rows.

(** A failure that tells the caller nothing but "internal error". *)
Definition generic_failure {A} (r : exn + A) : Prop :=
  match r with
  | inl e => exists detail, e = HTTPException HTTP_500_INTERNAL_SERVER_ERROR detail
  | inr _ => True
  end.

(** The exception a controller raises for an exception [e] it caught. *)
Definition failed_with `{Runtime} (prefix : string) (e : exn) : exn :=
  HTTPException HTTP_500_INTERNAL_SERVER_ERROR (prefix ++ str_exn e).

(** A metadata row without a last message has a creation time. *)
Definition metadata_wf (d : db) : Prop :=
  map_Forall (fun _ c => md_last_message_at c = None -> is_Some (md_created_at c))
    (conversation_metadata d).

(** A computation that takes well-formed metadata to well-formed metadata. *)
Definition keeps_metadata_wf {A} (c : M A) : Prop :=
  forall w, metadata_wf (tables w) -> metadata_wf (tables (snd (c w))).

(** A world whose third statement fails in the driver. *)
Definition third_statement_times_out : nat -> option exn :=
  fun n => if decide (n = 2%nat) then Some (DriverError TransientStorage "write timeout")
           else None.

(** A fresh store whose clock reads 456 microseconds past each whole
    millisecond. *)
Definition precise_world : world :=
  World empty_db (fun n => 1000 + Z.of_nat n) (fun _ => 456) 0 (fun n => N.of_nat n) 0
    no_faults [].

(** Two sends between users 5 and 9 on a fresh store. *)
Definition sample_history : world :=
  run (MessageModel.create_message (H := sample_runtime) 9 5 "again" None)
    (run (MessageModel.create_message (H := sample_runtime) 5 9 "hello" None)
       (fresh_world 1000 1 no_faults)).

(** A resolution that lost its metadata write: the lookup row of (5, 9) is
    there, the metadata row is not. *)
Definition half_created : world :=
  run (ConversationModel.create_or_get_conversation 5 9)
    (fresh_world 1000 1 third_statement_times_out).

(** A store that is down: every statement raises an error of kind [k]. *)
Definition storage_down (k : error_kind) : nat -> option exn :=
  fun _ => Some (DriverError k "storage unavailable").

(** ** Vocabulary of the further properties *)

(** Every message of conversation [cid] was created before [ts]. *)
Definition messages_older_than (d : db) (cid : Z) (ts : datetime) : Prop :=
  forall k v, messages_by_conversation d !! k = Some v -> k.1.1 = cid -> k.1.2 < ts.

(** Every summary row of user [uid] is about a message sent before [ts]. *)
Definition summaries_older_than (d : db) (uid : Z) (ts : datetime) : Prop :=
  forall k v, conversations_by_user d !! k = Some v -> k.1.1 = uid -> k.1.2 < ts.

(** [row] is a row of the summary table, in the partition of [uid]. *)
Definition stored_summary (d : db) (uid : Z) (row : summary_row) : Prop :=
  sr_user_id row = uid
  /\ conversations_by_user d !! (uid, sr_last_message_at row, sr_conversation_id row)
     = Some (SummaryCols (sr_other_user_id row) (sr_last_message_content row)).

(** Every key of the lookup table has the smaller user id first. *)
Definition lookup_canonical (d : db) : Prop :=
  forall a b cid, user_conversations_lookup d !! (a, b) = Some cid -> a <= b.

(** [c] keeps [P] true of the tables, however it ends. *)
Definition keeps {A} (P : db -> Prop) (c : M A) : Prop :=
  forall w, P (tables w) -> P (tables (snd (c w))).

(** The next [k] statements handed to the store are not hit by an error. *)
Definition next_statements_succeed (w : world) (k : nat) : Prop :=
  forall n, (length (log w) <= n < length (log w) + k)%nat -> faults w n = None.

(** The id [create_or_get_conversation] derives for a new conversation. *)
Definition derived_id (now_ms lo hi : Z) : Z := now_ms + lo * 1000 + hi `mod` 1000.

(** ** Connecting to the store ([app/db/cassandra_client.py],
    [scripts/setup_db.py])

    The driver calls inside a [try] block are not modelled one by one: the
    n-th attempt to connect (counted from 0 over the life of the process)
    either completes or raises, as [outcome n] says. What is modelled is
    the loop around them: how often it tries, how long it sleeps and what
    it raises. *)

Module Connection.

Record state := State {
  session : bool;          (* [self.session] is set *)
  attempts : nat;          (* attempts made so far *)
  slept : list Z           (* the arguments of [time.sleep], in order *)
}.

Definition initial : state := State false 0 [].

(** [CassandraClient.connect]: [for attempt in range(1, retries + 1)];
    [remaining] counts the iterations left and [attempt] is the loop
    variable. *)
Fixpoint connect_loop (outcome : nat -> option exn) (retries delay : Z)
    (remaining : nat) (attempt : Z) (st : state) : (exn + unit) * state :=
  match remaining with
  | O => (inr tt, st)
  | S remaining' =>
      match outcome (attempts st) with
      | None => (inr tt, State true (S (attempts st)) (slept st))
      | Some e =>
          if decide (attempt < retries)
          then connect_loop outcome retries delay remaining' (attempt + 1)
                 (State (session st) (S (attempts st)) (slept st ++ [delay]))
          else (inl e, State (session st) (S (attempts st)) (slept st))
      end
  end.

Definition connect (outcome : nat -> option exn) (retries delay : Z) (st : state)
    : (exn + unit) * state :=
  connect_loop outcome retries delay (Z.to_nat retries) 1 st.

(** What [wait_for_cassandra] raises when it gives up. *)
Definition could_not_connect : string := "Could not connect to Cassandra".

(** [wait_for_cassandra]: [for i in range(20)], sleeping 5 seconds after
    every failed attempt; the result is [inr tt] when a cluster is returned
    and [inl could_not_connect] when the loop runs out. *)
Fixpoint wait_loop (outcome : nat -> option exn) (remaining : nat) (st : state)
    : (string + unit) * state :=
  match remaining with
  | O => (inl could_not_connect, st)
  | S remaining' =>
      match outcome (attempts st) with
      | None => (inr tt, State true (S (attempts st)) (slept st))
      | Some _ =>
          wait_loop outcome remaining'
            (State (session st) (S (attempts st)) (slept st ++ [5]))
      end
  end.

Definition wait_for_cassandra (outcome : nat -> option exn) (st : state)
    : (string + unit) * state :=
  wait_loop outcome 20 st.


(** The first [k] attempts from now on fail. *)
Definition next_attempts_fail (outcome : nat -> option exn) (st : state) (k : nat) : Prop :=
  forall i, (i < k)%nat -> is_Some (outcome (attempts st + i)%nat).

End Connection.

(** A store that fails the tenth statement it is handed. *)
Definition tenth_statement_fails : nat -> option exn :=
  fun n => if decide (n = 9%nat) then Some (DriverError TransientStorage "write timeout")
           else None.

(** A server that refuses the first two connection attempts, and one that
    refuses them all. *)
Definition first_two_refused : nat -> option exn :=
  fun n => if decide (n < 2)%nat then Some (DriverError TransientStorage "no host available")
           else None.

Definition always_refused : nat -> option exn :=
  fun n => Some (DriverError TransientStorage "no host available").

(** The store after a send between users 5 and 9 at 1000 ms and 456
    microseconds. *)
Definition precise_sent : world :=
  run (MessageModel.create_message (H := sample_runtime) 5 9 "hello" None) precise_world.

(** The store after the first send between users 5 and 9. *)
Definition hello_sent : world :=
  run (MessageModel.create_message (H := sample_runtime) 5 9 "hello" None)
    (fresh_world 1000 1 no_faults).

(** * Properties *)

(** ** Running the monad *)

Lemma result_run {A} (c : M A) w r : result c w = r -> c w = (r, run c w).
Proof. unfold result, run. intros <-. destruct (c w); reflexivity. Qed.

Lemma bind_inr {A B} (c : M A) (k : A -> M B) w b w' :
  bind c k w = (inr b, w') ->
  exists a w1, c w = (inr a, w1) /\ k a w1 = (inr b, w').
Proof.
  unfold bind. destruct (c w) as [[e|a] w1]; [discriminate|]. eauto.
Qed.

Lemma bind_run_inr {A B} (c : M A) (k : A -> M B) w a w1 :
  c w = (inr a, w1) -> bind c k w = k a w1.
Proof. unfold bind. intros ->. reflexivity. Qed.

Lemma bind_run_inl {A B} (c : M A) (k : A -> M B) w e w1 :
  c w = (inl e, w1) -> bind c k w = (inl e, w1).
Proof. unfold bind. intros ->. reflexivity. Qed.

Lemma execute_inr q w r w' :
  execute q w = (inr r, w') ->
  faults w (length (log w)) = None
  /\ fst (run_query q (tables w)) = inr r
  /\ w' = logged w q (snd (run_query q (tables w))).
Proof.
  unfold execute. destruct (faults w (length (log w))); [discriminate|].
  intros [= Hr Hw]. auto.
Qed.

Lemma execute_run q w :
  faults w (length (log w)) = None ->
  execute q w = (fst (run_query q (tables w)), logged w q (snd (run_query q (tables w)))).
Proof. unfold execute. intros ->. reflexivity. Qed.

Lemma execute_fault q w e :
  faults w (length (log w)) = Some e ->
  execute q w = (inl e, logged w q (tables w)).
Proof. unfold execute. intros ->. reflexivity. Qed.

(** Invert a successful run, one statement at a time. *)
Ltac step_in H :=
  let a := fresh "a" in
  let w1 := fresh "w" in
  let Hc := fresh "Hc" in
  apply bind_inr in H as (a & w1 & Hc & H).

Ltac exec_in H :=
  let Hf := fresh "Hfault" in
  let Hr := fresh "Hrows" in
  let Hw := fresh "Hw" in
  match type of H with
  | execute ?q ?w = (inr ?r, ?w') =>
      pose proof (execute_inr q w r w' H) as (Hf & Hr & Hw); clear H;
      simpl in Hr, Hw
  end.

(** ** Conversation resolution *)

Lemma canonical_comm a b : canonical a b = canonical b a.
Proof.
  unfold canonical. repeat case_decide; try reflexivity; try lia.
  assert (a = b) by lia. subst. reflexivity.
Qed.

Lemma create_or_get_conversation_unfold a b :
  ConversationModel.create_or_get_conversation a b =
  (let* rows := execute (SelectLookup (canonical a b).1 (canonical a b).2) in
   match rows with
   | found :: _ => ret found
   | [] =>
       let* timestamp := utcnow in
       let* now_ms := time_ms in
       let conversation_id :=
         now_ms + (canonical a b).1 * 1000 + (canonical a b).2 `mod` 1000 in
       let* _ := execute (InsertLookup (canonical a b).1 (canonical a b).2 conversation_id) in
       let* _ := execute (InsertMetadata conversation_id (canonical a b).1
                            (canonical a b).2 (cql_encode_datetime timestamp)) in
       ret conversation_id
   end).
Proof.
  unfold ConversationModel.create_or_get_conversation, canonical.
  case_decide; reflexivity.
Qed.

(** After a successful resolution the lookup table maps the canonical pair
    to the id that was returned. *)
Lemma create_or_get_conversation_lookup a b w cid w1 :
  ConversationModel.create_or_get_conversation a b w = (inr cid, w1) ->
  user_conversations_lookup (tables w1) !! canonical a b = Some cid.
Proof.
  rewrite create_or_get_conversation_unfold.
  destruct (canonical a b) as [lo hi]; simpl.
  intros H. step_in H. exec_in Hc.
  destruct (user_conversations_lookup (tables w) !! (lo, hi)) as [found|] eqn:Hl;
    injection Hrows as <-.
  - injection H as <- <-. subst w0. simpl. exact Hl.
  - step_in H. injection Hc as <- <-.
    step_in H. injection Hc as <- <-.
    step_in H. exec_in Hc.
    step_in H. exec_in Hc.
    injection H as <- <-. subst. simpl. apply lookup_insert_eq.
Qed.

(** C2: resolution does not depend on the order of its two arguments, and
    a second resolution of the same unordered pair, run after a first one
    that returned [cid], returns [cid] again: it reads the lookup row and
    writes nothing. *)
Theorem resolve_commutative_idempotent (a b : Z) (w : world) :
  ConversationModel.create_or_get_conversation a b w
  = ConversationModel.create_or_get_conversation b a w
  /\ forall cid w1,
       ConversationModel.create_or_get_conversation a b w = (inr cid, w1) ->
       faults w1 (length (log w1)) = None ->
       exists w2,
         ConversationModel.create_or_get_conversation a b w1 = (inr cid, w2)
         /\ ConversationModel.create_or_get_conversation b a w1 = (inr cid, w2)
         /\ tables w2 = tables w1
         /\ issued_since (log w1) w2
            = [SelectLookup (canonical a b).1 (canonical a b).2].
Proof.
  split.
  - rewrite !create_or_get_conversation_unfold, (canonical_comm a b). reflexivity.
  - intros cid w1 Hfirst Hok.
    apply create_or_get_conversation_lookup in Hfirst.
    exists (logged w1 (SelectLookup (canonical a b).1 (canonical a b).2) (tables w1)).
    rewrite !create_or_get_conversation_unfold, (canonical_comm b a).
    destruct (canonical a b) as [lo hi]; simpl in *.
    assert (Hrun : forall k : list Z -> M Z,
      bind (execute (SelectLookup lo hi)) k w1
      = k [cid] (logged w1 (SelectLookup lo hi) (tables w1))).
    { intros k. erewrite bind_run_inr; [reflexivity|].
      rewrite execute_run by exact Hok. simpl. rewrite Hfirst. reflexivity. }
    rewrite Hrun. repeat split.
    unfold issued_since. simpl. rewrite drop_app_length. reflexivity.
Qed.

Lemma resolve_commutative_idempotent_witness :
  let w := fresh_world 1000 1 no_faults in
  let w1 := run (ConversationModel.create_or_get_conversation 9 5) w in
  ConversationModel.create_or_get_conversation 9 5 w
  = ConversationModel.create_or_get_conversation 5 9 w
  /\ exists w2,
       ConversationModel.create_or_get_conversation 9 5 w1 = (inr 6010, w2)
       /\ ConversationModel.create_or_get_conversation 5 9 w1 = (inr 6010, w2)
       /\ tables w2 = tables w1
       /\ issued_since (log w1) w2 = [SelectLookup 5 9].
Proof.
  intros w w1.
  destruct (resolve_commutative_idempotent 9 5 w) as [Hcomm Hidem].
  split; [exact Hcomm|].
  apply (Hidem 6010 w1); reflexivity.
Defined.

(** C3: two resolutions at the same millisecond, for the distinct pairs
    (1, 2) and (1, 1002) on a fresh store, each create a conversation and
    both derive the id 1700000001002; the second creation then replaces the
    participants recorded for the first. The same happens one second
    apart for the pairs (2, 5) and (1, 5). *)
Theorem conversation_id_collision :
  (let w := fresh_world 1700000000000 0 no_faults in
   let r1 := ConversationModel.create_or_get_conversation 1 2 w in
   let r2 := ConversationModel.create_or_get_conversation 1 1002 (snd r1) in
   fst r1 = inr 1700000001002
   /\ fst r2 = inr 1700000001002
   /\ lookup_writes (log (snd r2))
      = [InsertLookup 1 2 1700000001002; InsertLookup 1 1002 1700000001002]
   /\ (conversation_metadata (tables (snd r1)) !! 1700000001002) ≫= md_user2_id = Some 2
   /\ (conversation_metadata (tables (snd r2)) !! 1700000001002) ≫= md_user2_id
      = Some 1002)
  /\ (let w := fresh_world 1700000000000 500 no_faults in
      let r1 := ConversationModel.create_or_get_conversation 2 5 w in
      let r2 := ConversationModel.create_or_get_conversation 1 5 (snd r1) in
      clock w 1 = 1700000000500 /\ clock w 3 = 1700000001500
      /\ fst r1 = inr 1700000002505
      /\ fst r2 = inr 1700000002505
      /\ lookup_writes (log (snd r2))
         = [InsertLookup 2 5 1700000002505; InsertLookup 1 5 1700000002505]).
Proof. vm_compute. repeat split. Qed.

(** ** The write fan-out of a send *)

Section fanout.
Context `{Runtime}.

(** What a successful send leaves behind. *)
Lemma create_message_inr sender receiver content conv w m w' :
  MessageModel.create_message sender receiver content conv w = (inr m, w') ->
  exists cid w0,
    let ts := clock w (ticks w) in
    let mid := uuids w (drawn w) in
    m = MessageModel.MessageDict (str_uuid mid) cid sender receiver content
          (datetime_isoformat (Instant ts (micros w (ticks w))))
    /\ tables w' =
       set_metadata
         (set_summaries
            (set_messages (tables w0)
               (<[(cid, ts, mid) := MessageCols sender receiver content]>
                  (messages_by_conversation (tables w0))))
            (<[(receiver, ts, cid) := SummaryCols sender content]>
               (<[(sender, ts, cid) := SummaryCols receiver content]>
                  (conversations_by_user (tables w0)))))
         (<[cid := update_metadata_cols (conversation_metadata (tables w0) !! cid)
                     ts content]>
            (conversation_metadata (tables w0)))
    /\ log w' = log w0 ++
         [InsertMessage cid ts mid sender receiver content;
          InsertSummary sender ts cid receiver content;
          InsertSummary receiver ts cid sender content;
          UpdateMetadata ts content cid]
    /\ match conv with
       | Some c => cid = c /\ tables w0 = tables w /\ log w0 = log w
       | None =>
           ConversationModel.create_or_get_conversation sender receiver
             (World (tables w) (clock w) (micros w) (S (ticks w)) (uuids w) (S (drawn w))
                (faults w) (log w))
           = (inr cid, w0)
       end.
Proof.
  unfold MessageModel.create_message. intros Hrun.
  step_in Hrun. injection Hc as <- <-.
  step_in Hrun. injection Hc as <- <-.
  step_in Hrun. rename a into cid, w0 into wc.
  exists cid, wc.
  step_in Hrun. exec_in Hc0.
  step_in Hrun. exec_in Hc0.
  step_in Hrun. exec_in Hc0.
  step_in Hrun. exec_in Hc0.
  injection Hrun as <- <-. subst. simpl.
  repeat split.
  - rewrite <- !app_assoc. reflexivity.
  - destruct conv as [c|]; [|exact Hc].
    injection Hc as <- <-. auto.
Qed.


End fanout.



(** ** Summary rows across sends *)

Lemma summary_count_insert (d : db) uid cid k v :
  size (filter (fun kv : Z * datetime * Z * summary_cols => kv.1.1.1 = uid /\ kv.1.2 = cid)
          (<[k := v]> (conversations_by_user d)))
  = (summary_count d uid cid
     + if decide (k.1.1 = uid /\ k.2 = cid)
       then (if decide (is_Some (conversations_by_user d !! k)) then 0 else 1)
       else 0)%nat.
Proof.
  unfold summary_count, summary_rows_of.
  rewrite map_filter_insert. simpl.
  destruct (decide (k.1.1 = uid /\ k.2 = cid)) as [HP|HP].
  - rewrite map_size_insert.
    destruct (conversations_by_user d !! k) as [y|] eqn:Hk.
    + rewrite decide_True by eauto.
      erewrite map_lookup_filter_Some_2; [simpl; lia|exact Hk|exact HP].
    + rewrite decide_False by (intros [? ?]; discriminate).
      rewrite map_lookup_filter_None_2 by auto. lia.
  - rewrite map_filter_delete_not; [lia|]. intros y _. exact HP.
Qed.

Lemma create_or_get_conversation_summaries a b w cid w1 :
  ConversationModel.create_or_get_conversation a b w = (inr cid, w1) ->
  conversations_by_user (tables w1) = conversations_by_user (tables w).
Proof.
  rewrite create_or_get_conversation_unfold.
  destruct (canonical a b) as [lo hi]; simpl.
  intros Hrun. step_in Hrun. exec_in Hc.
  destruct a0 as [|found ?].
  - step_in Hrun. injection Hc as <- <-.
    step_in Hrun. injection Hc as <- <-.
    step_in Hrun. exec_in Hc.
    step_in Hrun. exec_in Hc.
    injection Hrun as <- <-. subst. reflexivity.
  - injection Hrun as <- <-. subst. reflexivity.
Qed.

(** C4, as the code has it: a summary row is keyed by
    (user_id, last_message_at, conversation_id), so a send replaces a
    participant's summary row only when that row carries the timestamp of
    the new message; otherwise every row written before stays and the
    participant gets one more. *)
Theorem summary_rows_per_send `{Runtime} sender receiver content conv w m w' :
  MessageModel.create_message sender receiver content conv w = (inr m, w') ->
  let ts := clock w (ticks w) in
  let cid := MessageModel.conversation_id m in
  (forall u, u = sender \/ u = receiver ->
     summary_count (tables w') u cid
     = (summary_count (tables w) u cid
        + if decide (is_Some (conversations_by_user (tables w) !! (u, ts, cid)))
          then 0 else 1)%nat)
  /\ (forall k, k <> (sender, ts, cid) -> k <> (receiver, ts, cid) ->
        conversations_by_user (tables w') !! k = conversations_by_user (tables w) !! k).
Proof.
  intros Hrun.
  destruct (create_message_inr _ _ _ _ _ _ _ Hrun) as (cid & w0 & Hm & Ht & _ & Hconv).
  simpl in Hm, Ht. subst m. simpl.
  assert (Hsame : conversations_by_user (tables w0) = conversations_by_user (tables w)).
  { destruct conv as [c|].
    - destruct Hconv as (_ & -> & _). reflexivity.
    - apply create_or_get_conversation_summaries in Hconv. exact Hconv. }
  set (ts := clock w (ticks w)) in *.
  set (d1 := set_summaries (tables w)
               (<[(sender, ts, cid) := SummaryCols receiver content]>
                  (conversations_by_user (tables w)))).
  split.
  - intros u Hu. unfold summary_count at 1, summary_rows_of.
    rewrite Ht. simpl. rewrite Hsame.
    change (<[(sender, ts, cid) := SummaryCols receiver content]>
              (conversations_by_user (tables w)))
      with (conversations_by_user d1).
    rewrite summary_count_insert. unfold summary_count at 1, summary_rows_of.
    unfold d1 at 1. simpl. rewrite summary_count_insert. simpl.
    destruct (decide (sender = receiver)) as [->|Hne].
    + assert (u = receiver) as -> by (destruct Hu; assumption).
      rewrite !(decide_True (P := receiver = receiver /\ cid = cid)) by auto.
      rewrite lookup_insert_eq.
      rewrite (decide_True (P := is_Some (Some _))) by eauto. lia.
    + destruct Hu as [->| ->].
      * rewrite (decide_True (P := sender = sender /\ cid = cid)) by auto.
        rewrite (decide_False (P := receiver = sender /\ cid = cid)) by (intros [? _]; congruence).
        lia.
      * rewrite (decide_False (P := sender = receiver /\ cid = cid)) by (intros [? _]; congruence).
        rewrite (decide_True (P := receiver = receiver /\ cid = cid)) by auto.
        rewrite lookup_insert_ne by congruence. lia.
  - intros k Hk1 Hk2. rewrite Ht. simpl. rewrite Hsame.
    rewrite !lookup_insert_ne by congruence. reflexivity.
Qed.

Lemma summary_rows_per_send_witness :
  let w1 := run (MessageModel.create_message (H := sample_runtime) 5 9 "hello" None)
              (fresh_world 1000 1 no_faults) in
  let w2 := run (MessageModel.create_message (H := sample_runtime) 9 5 "again" None) w1 in
  summary_count (tables w1) 5 6011 = 1%nat
  /\ summary_count (tables w2) 5 6011 = (summary_count (tables w1) 5 6011 + 1)%nat
  /\ conversations_by_user (tables w2) !! (5, 1000, 6011)
     = conversations_by_user (tables w1) !! (5, 1000, 6011).
Proof.
  intros w1 w2.
  assert (Hrun : MessageModel.create_message (H := sample_runtime) 9 5 "again" None w1
                 = (inr (MessageModel.MessageDict "1" 6011 9 5 "again" "T1003"), w2))
    by (vm_compute; reflexivity).
  destruct (summary_rows_per_send (H := sample_runtime) 9 5 "again" None w1 _ w2 Hrun)
    as [Hcount Hframe].
  split; [vm_compute; reflexivity|].
  split.
  - pose proof (Hcount 5 (or_intror eq_refl)) as H5.
    cbn [MessageModel.conversation_id] in H5. rewrite H5.
    vm_compute. reflexivity.
  - apply Hframe; discriminate.
Defined.

(** C4 as stated fails: after two sends between users 5 and 9 at different
    times, the conversation has four summary rows, two of them under user 5. *)
Lemma summary_rows_accumulate :
  let w0 := fresh_world 1000 1 no_faults in
  let w1 := run (MessageModel.create_message (H := sample_runtime) 5 9 "hello" None) w0 in
  let w2 := run (MessageModel.create_message (H := sample_runtime) 9 5 "again" None) w1 in
  result (MessageModel.create_message (H := sample_runtime) 5 9 "hello" None) w0
    = inr (MessageModel.MessageDict "0" 6011 5 9 "hello" "T1000")
  /\ result (MessageModel.create_message (H := sample_runtime) 9 5 "again" None) w1
    = inr (MessageModel.MessageDict "1" 6011 9 5 "again" "T1003")
  /\ conversation_summary_count (tables w2) 6011 = 4%nat
  /\ summary_count (tables w2) 5 6011 = 2%nat
  /\ ~ conversation_summary_count (tables w2) 6011 = 2%nat.
Proof. vm_compute. repeat split. discriminate. Qed.

(** ** Paginated reads *)

(** The driver's encoding is [int] of the milliseconds: the quotient that
    rounds toward zero. *)
Lemma cql_encode_datetime_quot t :
  cql_encode_datetime t = micros_since_epoch t `quot` 1000.
Proof.
  unfold cql_encode_datetime, micros_since_epoch.
  pose proof (Z.mod_pos_bound (sub_us t) 1000 ltac:(lia)) as Hmod.
  pose proof (Z.rem_bound_abs (sub_us t) 1000 ltac:(lia)) as Hrem.
  repeat case_decide.
  - apply Z.quot_unique with (r := sub_us t `mod` 1000); lia.
  - apply Z.opp_inj. rewrite <- Z.quot_opp_l by lia.
    apply Z.quot_unique with (r := sub_us t `mod` 1000); lia.
  - assert (whole_ms t = 0) as -> by lia. simpl.
    symmetry. apply Z.quot_small_iff; lia.
Qed.

Lemma micros_below_encoded ts t :
  ts < cql_encode_datetime t ->
  micros_since_epoch (from_timestamp ts) < micros_since_epoch t.
Proof.
  unfold cql_encode_datetime, micros_since_epoch, from_timestamp. simpl.
  pose proof (Z.mod_pos_bound (sub_us t) 1000 ltac:(lia)) as Hmod.
  pose proof (Z.rem_bound_abs (sub_us t) 1000 ltac:(lia)) as Hrem.
  change (0 `mod` 1000) with 0. change (0 `rem` 1000) with 0.
  repeat case_decide; lia.
Qed.

Lemma try_except_raise_inr {A} (c : M A) (f : exn -> exn) w a w' :
  try_except c (fun e => raise (f e)) w = (inr a, w') -> c w = (inr a, w').
Proof.
  unfold try_except, raise. destruct (c w) as [[e|a'] w1]; [discriminate|tauto].
Qed.

Lemma limit_rows_inr {A} n (l r : list A) :
  limit_rows n l = inr r -> 0 < n /\ r = take (Z.to_nat n) l.
Proof. unfold limit_rows. case_decide; [|discriminate]. intros [= <-]. auto. Qed.

#[global] Instance message_clustering_total : Total message_clustering.
Proof.
  intros r1 r2. unfold message_clustering.
  destruct (Z.lt_trichotomy (mr_created_at r1) (mr_created_at r2)) as [?|[?|?]];
    destruct (N.le_ge_cases (mr_message_id r1) (mr_message_id r2)); auto 6 with lia.
Qed.

#[global] Instance message_clustering_trans : Transitive message_clustering.
Proof. intros r1 r2 r3. unfold message_clustering. lia. Qed.

Lemma message_partition_sorted d cid :
  StronglySorted message_clustering (message_partition d cid).
Proof. apply StronglySorted_merge_sort; apply _. Qed.

Lemma message_partition_stored d cid :
  Forall (stored_message d cid) (message_partition d cid).
Proof.
  apply Forall_forall. intros row Hin. unfold message_partition in Hin.
  rewrite merge_sort_Permutation in Hin.
  apply list_elem_of_filter in Hin as [Hcid Hin].
  apply list_elem_of_fmap in Hin as ([[[c t] i] [s r b]] & -> & Hin).
  apply elem_of_map_to_list in Hin. simpl in *. subst c.
  split; [reflexivity|exact Hin].
Qed.

Lemma StronglySorted_take {A} (R : relation A) n l :
  StronglySorted R l -> StronglySorted R (take n l).
Proof. rewrite <- (take_drop n l) at 1. apply StronglySorted_app_1_l. Qed.

Lemma StronglySorted_drop {A} (R : relation A) n l :
  StronglySorted R l -> StronglySorted R (drop n l).
Proof. rewrite <- (take_drop n l) at 1. apply StronglySorted_app_1_r. Qed.

Lemma StronglySorted_lookup {A} (R : relation A) l i j x y :
  StronglySorted R l -> l !! i = Some x -> l !! j = Some y -> (i < j)%nat -> R x y.
Proof.
  intros Hs. revert i j. induction Hs as [|a l Hs IH Hall]; intros i j Hi Hj Hlt.
  - discriminate.
  - destruct j as [|j]; [lia|]. destruct i as [|i]; simpl in *.
    + injection Hi as <-. rewrite Forall_lookup in Hall. eauto.
    + apply (IH i j); [assumption..|lia].
Qed.

Section reads.
Context `{Runtime}.
Import Schemas.

Lemma get_conversation_messages_inr cid page limit w r w' :
  MessageController.get_conversation_messages cid page limit w = (inr r, w') ->
  0 < limit + (page - 1) * limit
  /\ r = {| messages := make_MessageResponse <$>
              (MessageModel.message_dict_of <$>
                 message_page (tables w) cid limit ((page - 1) * limit));
            pm_has_more :=
              bool_decide (Z.of_nat (length (MessageModel.message_dict_of <$>
                 message_page (tables w) cid limit ((page - 1) * limit))) = limit) |}.
Proof.
  unfold MessageController.get_conversation_messages,
    MessageModel.get_conversation_messages.
  intros Hrun. apply try_except_raise_inr in Hrun.
  step_in Hrun. step_in Hc. exec_in Hc0.
  apply limit_rows_inr in Hrows as [Hpos ->].
  injection Hc as <- <-. injection Hrun as <- <-.
  split; [exact Hpos|reflexivity].
Qed.

Lemma get_user_conversations_inr uid page limit w r w' :
  ConversationController.get_user_conversations uid page limit w = (inr r, w') ->
  0 < limit
  /\ r = {| conversations := make_ConversationListItem <$>
              (ConversationModel.summary_dict_of <$>
                 take (Z.to_nat limit) (summary_partition (tables w) uid));
            pc_has_more :=
              bool_decide (Z.of_nat (length (ConversationModel.summary_dict_of <$>
                 take (Z.to_nat limit) (summary_partition (tables w) uid))) = limit) |}.
Proof.
  unfold ConversationController.get_user_conversations,
    ConversationModel.get_user_conversations.
  intros Hrun. apply try_except_raise_inr in Hrun.
  step_in Hrun. step_in Hc. exec_in Hc0.
  apply limit_rows_inr in Hrows as [Hpos ->].
  injection Hc as <- <-. injection Hrun as <- <-.
  split; [exact Hpos|reflexivity].
Qed.

Lemma message_page_length d cid limit offset :
  0 < limit + offset -> 0 < limit ->
  Z.of_nat (length (message_page d cid limit offset)) <= limit.
Proof.
  intros Hpos Hlim. unfold message_page.
  case_decide; rewrite ?length_drop, length_take; lia.
Qed.

(** C5: with a limit of at least 1, a page of messages and a page of
    conversation summaries hold at most [limit] entries, and [has_more]
    is set exactly when the page holds [limit] entries. *)
Theorem pagination_bound (w : world) (limit : Z) :
  1 <= limit ->
  (forall cid page r w',
     MessageController.get_conversation_messages cid page limit w = (inr r, w') ->
     Z.of_nat (length (messages r)) <= limit
     /\ (pm_has_more r = true <-> Z.of_nat (length (messages r)) = limit))
  /\ (forall uid page r w',
        ConversationController.get_user_conversations uid page limit w = (inr r, w') ->
        Z.of_nat (length (conversations r)) <= limit
        /\ (pc_has_more r = true <-> Z.of_nat (length (conversations r)) = limit)).
Proof.
  intros Hlim. split.
  - intros cid page r w' Hrun.
    apply get_conversation_messages_inr in Hrun as [Hpos ->]. simpl.
    rewrite !length_fmap, bool_decide_eq_true.
    split; [apply message_page_length; lia|reflexivity].
  - intros uid page r w' Hrun.
    apply get_user_conversations_inr in Hrun as [Hpos ->]. simpl.
    rewrite !length_fmap, bool_decide_eq_true, length_take.
    split; [lia|reflexivity].
Qed.

(** C6: a page of messages lists rows of the conversation in the order
    (created_at desc, message_id desc): a message created before another
    one of the page comes after it. *)
Theorem messages_most_recent_first cid page limit w r w' :
  MessageController.get_conversation_messages cid page limit w = (inr r, w') ->
  exists rows,
    messages r = make_MessageResponse <$> (MessageModel.message_dict_of <$> rows)
    /\ Forall (stored_message (tables w) cid) rows
    /\ StronglySorted message_clustering rows
    /\ forall i j m1 m2,
         rows !! i = Some m1 -> rows !! j = Some m2 ->
         mr_created_at m1 < mr_created_at m2 -> (j < i)%nat.
Proof.
  intros Hrun. apply get_conversation_messages_inr in Hrun as [Hpos ->].
  exists (message_page (tables w) cid limit ((page - 1) * limit)).
  assert (Hsorted : StronglySorted message_clustering
                      (message_page (tables w) cid limit ((page - 1) * limit))).
  { unfold message_page. case_decide;
      auto using StronglySorted_drop, StronglySorted_take, message_partition_sorted. }
  split; [reflexivity|]. split; [|split; [exact Hsorted|]].
  - unfold message_page. case_decide;
      auto using Forall_drop, Forall_take, message_partition_stored.
  - intros i j m1 m2 Hi Hj Hlt.
    destruct (Nat.lt_trichotomy i j) as [Hij|[Heq|Hij]]; [| |exact Hij].
    + pose proof (StronglySorted_lookup _ _ _ _ _ _ Hsorted Hi Hj Hij) as Hord.
      unfold message_clustering in Hord. lia.
    + subst j. rewrite Hi in Hj. injection Hj as ->. lia.
Qed.

(** C7: every message returned by [get_messages_before_timestamp] is a
    row of the conversation created strictly before the given time: its
    [created_at] is below the whole milliseconds of that time, hence
    before that time itself. *)
Theorem messages_before_timestamp cid before page limit w r w' :
  MessageController.get_messages_before_timestamp cid before page limit w = (inr r, w') ->
  exists rows,
    messages r = make_MessageResponse <$> (MessageModel.message_dict_of <$> rows)
    /\ Forall (fun row =>
                 stored_message (tables w) cid row
                 /\ mr_created_at row < cql_encode_datetime before
                 /\ micros_since_epoch (from_timestamp (mr_created_at row))
                    < micros_since_epoch before)
         rows.
Proof.
  unfold MessageController.get_messages_before_timestamp,
    MessageModel.get_messages_before_timestamp.
  intros Hrun. apply try_except_raise_inr in Hrun.
  step_in Hrun. step_in Hc. exec_in Hc0.
  apply limit_rows_inr in Hrows as [Hpos ->].
  injection Hc as <- <-. injection Hrun as <- <-. simpl.
  eexists. split; [reflexivity|].
  apply Forall_take, Forall_forall. intros row Hin.
  apply list_elem_of_filter in Hin as [Hlt Hin].
  split; [|split; [exact Hlt|]].
  - pose proof (message_partition_stored (tables w) cid) as Hall.
    rewrite Forall_forall in Hall. auto.
  - apply micros_below_encoded. exact Hlt.
Qed.
End reads.

Lemma pagination_bound_witness :
  1 <= 2
  /\ exists r w',
       MessageController.get_conversation_messages (H := sample_runtime) 6011 1 2
         sample_history = (inr r, w')
       /\ Z.of_nat (length (Schemas.messages r)) <= 2
       /\ (Schemas.pm_has_more r = true <-> Z.of_nat (length (Schemas.messages r)) = 2).
Proof.
  split; [lia|].
  destruct (MessageController.get_conversation_messages (H := sample_runtime) 6011 1 2
              sample_history) as [[e|r] w'] eqn:Hrun; [vm_compute in Hrun; discriminate|].
  exists r, w'. split; [reflexivity|].
  apply (proj1 (pagination_bound (H := sample_runtime) sample_history 2 ltac:(lia))
           6011 1 r w' Hrun).
Defined.

Lemma messages_most_recent_first_witness :
  exists r w' rows,
    MessageController.get_conversation_messages (H := sample_runtime) 6011 1 2
      sample_history = (inr r, w')
    /\ Schemas.messages r
       = Schemas.make_MessageResponse <$>
           (MessageModel.message_dict_of (H := sample_runtime) <$> rows)
    /\ StronglySorted message_clustering rows.
Proof.
  destruct (MessageController.get_conversation_messages (H := sample_runtime) 6011 1 2
              sample_history) as [[e|r] w'] eqn:Hrun; [vm_compute in Hrun; discriminate|].
  destruct (messages_most_recent_first (H := sample_runtime) 6011 1 2 sample_history r w' Hrun)
    as (rows & Hmsgs & _ & Hsorted & _).
  exists r, w', rows. auto.
Defined.

Lemma messages_before_timestamp_witness :
  exists r w' rows,
    MessageController.get_messages_before_timestamp (H := sample_runtime) 6011
      (Instant 1003 500) 1 2 sample_history = (inr r, w')
    /\ Schemas.messages r
       = Schemas.make_MessageResponse <$>
           (MessageModel.message_dict_of (H := sample_runtime) <$> rows)
    /\ Forall (fun row => stored_message (tables sample_history) 6011 row
                          /\ mr_created_at row < 1003
                          /\ micros_since_epoch (from_timestamp (mr_created_at row))
                             < 1003500) rows.
Proof.
  destruct (MessageController.get_messages_before_timestamp (H := sample_runtime)
              6011 (Instant 1003 500) 1 2 sample_history) as [[e|r] w'] eqn:Hrun;
    [vm_compute in Hrun; discriminate|].
  destruct (messages_before_timestamp (H := sample_runtime) 6011 (Instant 1003 500) 1 2
              sample_history r w' Hrun) as (rows & Hmsgs & Hall).
  exists r, w', rows. auto.
Defined.

(** ** Failures *)

Lemma try_except_raise {A} (c : M A) (f : exn -> exn) w :
  try_except c (fun e => raise (f e)) w
  = match c w with
    | (inr a, w') => (inr a, w')
    | (inl e, w') => (inl (f e), w')
    end.
Proof. unfold try_except, raise. destruct (c w) as [[e|a] w']; reflexivity. Qed.

Lemma try_except_generic {A} (c : M A) (prefix : string) (str : exn -> string) w :
  generic_failure
    (result (try_except c
               (fun e => raise (HTTPException HTTP_500_INTERNAL_SERVER_ERROR
                                  (prefix ++ str e)))) w).
Proof.
  unfold result.
  rewrite (try_except_raise c
             (fun e => HTTPException HTTP_500_INTERNAL_SERVER_ERROR (prefix ++ str e))).
  destruct (c w) as [[e|a] w']; simpl; eauto.
Qed.

Section failures.
Context `{Runtime}.
Import Schemas.

Lemma try_except_failed_with {A} (c : M A) (prefix : string) w :
  try_except c
    (fun e => raise (HTTPException HTTP_500_INTERNAL_SERVER_ERROR
                       (prefix ++ str_exn e))) w
  = match c w with
    | (inr a, w') => (inr a, w')
    | (inl e, w') => (inl (failed_with prefix e), w')
    end.
Proof. apply (try_except_raise c (failed_with prefix)). Qed.

(** C8, as the code has it: when resolution returns an id and the one
    read of its metadata finds no row, the controller does not read
    again; it fails with the generic 500 that wraps the 404. *)
Theorem reread_not_found_fails_at_once a b w cid w1 w2 :
  ConversationModel.create_or_get_conversation a b w = (inr cid, w1) ->
  ConversationModel.get_conversation cid w1 = (inr None, w2) ->
  ConversationController.create_or_get_conversation a b w
  = (inl (failed_with "Failed to create conversation: "
            (HTTPException HTTP_404_NOT_FOUND
               "Failed to retrieve conversation after creation")), w2)
  /\ issued_since (log w1) w2 = [SelectMetadata cid]
  /\ metadata_reads cid (issued_since (log w1) w2) = 1%nat.
Proof.
  intros Hcreate Hread.
  split.
  - unfold ConversationController.create_or_get_conversation.
    rewrite try_except_failed_with.
    erewrite bind_run_inr by exact Hcreate.
    erewrite bind_run_inr by exact Hread. reflexivity.
  - unfold ConversationModel.get_conversation in Hread.
    step_in Hread. exec_in Hc.
    assert (Hlog : issued_since (log w1) w2 = [SelectMetadata cid]).
    { destruct (conversation_metadata (tables w1) !! cid) as [c|];
        injection Hrows as <-.
      - simpl in Hread. destruct (md_created_at c); discriminate.
      - injection Hread as <-. subst w0. unfold issued_since. simpl.
        rewrite drop_app_length. reflexivity. }
    split; [exact Hlog|]. rewrite Hlog. unfold metadata_reads.
    rewrite filter_cons_True by reflexivity. reflexivity.
Qed.

(** C9: whatever is raised while one of the five operations runs reaches
    the caller as an HTTP 500 whose detail is a fixed prefix followed by
    the text of the exception; the kind of the error is not passed on. *)
Theorem storage_errors_become_500 (w : world) :
  (forall md,
      generic_failure (result (MessageController.send_message md) w))
  /\ (forall cid page limit,
        generic_failure
          (result (MessageController.get_conversation_messages cid page limit) w))
  /\ (forall cid before page limit,
        generic_failure
          (result (MessageController.get_messages_before_timestamp cid before page limit) w))
  /\ (forall uid page limit,
        generic_failure
          (result (ConversationController.get_user_conversations uid page limit) w))
  /\ (forall a b,
        generic_failure (result (ConversationController.create_or_get_conversation a b) w))
  /\ (forall md e w',
        MessageModel.create_message (mcr_sender_id md) (mcr_receiver_id md)
          (mcr_content md) None w = (inl e, w') ->
        MessageController.send_message md w
        = (inl (failed_with "Failed to send message: " e), w'))
  /\ (forall cid page limit e w',
        MessageModel.get_conversation_messages cid limit ((page - 1) * limit) w
        = (inl e, w') ->
        MessageController.get_conversation_messages cid page limit w
        = (inl (failed_with "Failed to get messages: " e), w'))
  /\ (forall cid before page limit e w',
        MessageModel.get_messages_before_timestamp cid before limit w = (inl e, w') ->
        MessageController.get_messages_before_timestamp cid before page limit w
        = (inl (failed_with "Failed to get messages: " e), w'))
  /\ (forall uid page limit e w',
        ConversationModel.get_user_conversations uid limit w = (inl e, w') ->
        ConversationController.get_user_conversations uid page limit w
        = (inl (failed_with "Failed to get conversations: " e), w'))
  /\ (forall a b e w',
        ConversationModel.create_or_get_conversation a b w = (inl e, w') ->
        ConversationController.create_or_get_conversation a b w
        = (inl (failed_with "Failed to create conversation: " e), w')).
Proof.
  repeat split; intros;
    try apply try_except_generic.
  - unfold MessageController.send_message.
    rewrite try_except_failed_with.
    erewrite bind_run_inl by eassumption. reflexivity.
  - unfold MessageController.get_conversation_messages.
    rewrite try_except_failed_with.
    erewrite bind_run_inl by eassumption. reflexivity.
  - unfold MessageController.get_messages_before_timestamp.
    rewrite try_except_failed_with.
    erewrite bind_run_inl by eassumption. reflexivity.
  - unfold ConversationController.get_user_conversations.
    rewrite try_except_failed_with.
    erewrite bind_run_inl by eassumption. reflexivity.
  - unfold ConversationController.create_or_get_conversation.
    rewrite try_except_failed_with.
    erewrite bind_run_inl by eassumption. reflexivity.
Qed.
End failures.

Lemma reread_not_found_fails_at_once_witness :
  let w1 := run (ConversationModel.create_or_get_conversation 5 9) half_created in
  exists w2,
    ConversationController.create_or_get_conversation (H := sample_runtime) 5 9 half_created
    = (inl (HTTPException 500
              "Failed to create conversation: 404: Failed to retrieve conversation after creation"),
       w2)
    /\ issued_since (log w1) w2 = [SelectMetadata 6010]
    /\ metadata_reads 6010 (issued_since (log w1) w2) = 1%nat.
Proof.
  intros w1.
  exists (run (ConversationModel.get_conversation (H := sample_runtime) 6010) w1).
  apply (reread_not_found_fails_at_once (H := sample_runtime) 5 9 half_created 6010 w1);
    apply result_run; vm_compute; reflexivity.
Defined.

(** C8 as stated fails: the lookup row of (5, 9) exists, its metadata row
    does not; resolution returns 6010, the read of the metadata finds
    nothing, and the controller fails after that single read. *)
Lemma no_retry_after_creation :
  let r := ConversationController.create_or_get_conversation (H := sample_runtime) 5 9
             half_created in
  result (ConversationModel.create_or_get_conversation 5 9) half_created = inr 6010
  /\ result (ConversationModel.get_conversation (H := sample_runtime) 6010)
       (run (ConversationModel.create_or_get_conversation 5 9) half_created) = inr None
  /\ fst r = inl (HTTPException 500
        "Failed to create conversation: 404: Failed to retrieve conversation after creation")
  /\ metadata_reads 6010 (issued_since (log half_created) (snd r)) = 1%nat
  /\ ~ (2 <= metadata_reads 6010 (issued_since (log half_created) (snd r)))%nat.
Proof. vm_compute. repeat split. lia. Qed.

Lemma storage_errors_become_500_witness :
  let w := fresh_world 1000 1 (storage_down Conflict) in
  let md := {| Schemas.mcr_content := "hello";
               Schemas.mcr_sender_id := 5; Schemas.mcr_receiver_id := 9 |} in
  fst (MessageController.send_message (H := sample_runtime) md w)
  = inl (HTTPException 500 "Failed to send message: storage unavailable")
  /\ fst (ConversationController.create_or_get_conversation (H := sample_runtime) 5 9 w)
    = inl (HTTPException 500 "Failed to create conversation: storage unavailable").
Proof.
  intros w md.
  destruct (storage_errors_become_500 (H := sample_runtime) w)
    as (_ & _ & _ & _ & _ & Hsend & _ & _ & _ & Hcreate).
  split.
  - erewrite (Hsend md (DriverError Conflict "storage unavailable"))
      by (apply result_run; vm_compute; reflexivity).
    reflexivity.
  - erewrite (Hcreate 5 9 (DriverError Conflict "storage unavailable"))
      by (apply result_run; vm_compute; reflexivity).
    reflexivity.
Defined.

(** ** Conversations without a message *)

Lemma metadata_wf_empty : metadata_wf empty_db.
Proof. apply map_Forall_empty. Qed.

(** No statement breaks [metadata_wf]. *)
Lemma run_query_metadata_wf q d :
  metadata_wf d -> metadata_wf (snd (run_query q d)).
Proof.
  unfold metadata_wf. intros Hwf.
  destruct q; simpl; try exact Hwf;
    try (unfold limit_rows; case_decide; exact Hwf).
  - apply map_Forall_insert_2; [discriminate|exact Hwf].
  - apply map_Forall_insert_2; [simpl; eauto|exact Hwf].
Qed.

Lemma keeps_ret {A} (a : A) : keeps_metadata_wf (ret a).
Proof. intros w Hwf. exact Hwf. Qed.

Lemma keeps_bind {A B} (c : M A) (k : A -> M B) :
  keeps_metadata_wf c -> (forall a, keeps_metadata_wf (k a)) ->
  keeps_metadata_wf (bind c k).
Proof.
  intros Hc Hk w Hwf. unfold bind. specialize (Hc w Hwf).
  destruct (c w) as [[e|a] w1]; [exact Hc|]. apply Hk. exact Hc.
Qed.

Lemma keeps_execute q : keeps_metadata_wf (execute q).
Proof.
  intros w Hwf. unfold execute.
  destruct (faults w (length (log w))); simpl; [exact Hwf|].
  apply run_query_metadata_wf. exact Hwf.
Qed.

Lemma keeps_utcnow : keeps_metadata_wf utcnow.
Proof. intros w Hwf. exact Hwf. Qed.

Lemma keeps_uuid4 : keeps_metadata_wf uuid4.
Proof. intros w Hwf. exact Hwf. Qed.

Lemma keeps_create_or_get_conversation a b :
  keeps_metadata_wf (ConversationModel.create_or_get_conversation a b).
Proof.
  rewrite create_or_get_conversation_unfold.
  apply keeps_bind; [apply keeps_execute|]. intros [|found ?]; [|apply keeps_ret].
  repeat (apply keeps_bind; [first [apply keeps_utcnow|apply keeps_execute]|intros ?]).
  apply keeps_ret.
Qed.

Lemma keeps_create_message `{Runtime} sender receiver content conv :
  keeps_metadata_wf (MessageModel.create_message sender receiver content conv).
Proof.
  unfold MessageModel.create_message.
  apply keeps_bind; [apply keeps_utcnow|intros ?].
  apply keeps_bind; [apply keeps_uuid4|intros ?].
  apply keeps_bind;
    [destruct conv; [apply keeps_ret|apply keeps_create_or_get_conversation]|intros ?].
  repeat (apply keeps_bind; [apply keeps_execute|intros ?]).
  apply keeps_ret.
Qed.

(** C10: for a conversation whose metadata row has no last message,
    [get_conversation] returns a record whose [last_updated] is the
    rendering of the row's creation time. *)
Theorem get_conversation_before_first_message `{Runtime} cid c w :
  metadata_wf (tables w) ->
  faults w (length (log w)) = None ->
  conversation_metadata (tables w) !! cid = Some c ->
  md_last_message_at c = None ->
  exists created d w',
    md_created_at c = Some created
    /\ ConversationModel.get_conversation cid w = (inr (Some d), w')
    /\ ConversationModel.last_updated d = isoformat created
    /\ ConversationModel.created_at d = isoformat created.
Proof.
  intros Hwf Hok Hrow Hnull.
  destruct (Hwf cid c Hrow Hnull) as [created Hcreated].
  exists created. unfold ConversationModel.get_conversation, bind.
  rewrite (execute_run _ _ Hok). simpl. rewrite Hrow. simpl.
  rewrite Hcreated, Hnull.
  eexists _, _. split; [reflexivity|]. split; [reflexivity|]. split; reflexivity.
Qed.

Lemma get_conversation_before_first_message_witness :
  let w := run (ConversationModel.create_or_get_conversation 5 9)
             (fresh_world 1000 1 no_faults) in
  exists d w',
    ConversationModel.get_conversation (H := sample_runtime) 6010 w = (inr (Some d), w')
    /\ ConversationModel.last_updated d = "T1000"
    /\ ConversationModel.created_at d = "T1000".
Proof.
  intros w.
  destruct (get_conversation_before_first_message (H := sample_runtime) 6010
              (MetadataCols (Some 5) (Some 9) (Some 1000) None None) w)
    as (created & d & w' & Hcreated & Hrun & Hlast & Hfirst).
  - apply (keeps_create_or_get_conversation 5 9 (fresh_world 1000 1 no_faults)).
    apply metadata_wf_empty.
  - reflexivity.
  - vm_compute. reflexivity.
  - reflexivity.
  - injection Hcreated as <-. exists d, w'. auto.
Defined.

(** * Further properties of the models and controllers *)

(** ** What the operations leave alone *)

Section reads_are_pure.
Context `{Runtime}.

(** X1: The four read operations never change a table, whether they return a
    page or fail, and each hands exactly one statement to the store,
    whatever the page number. *)
Theorem reads_leave_the_store_unchanged (w : world) :
  (forall cid page limit,
      let w' := snd (MessageController.get_conversation_messages cid page limit w) in
      tables w' = tables w
      /\ log w' = log w ++ [SelectMessages cid (limit + (page - 1) * limit)])
  /\ (forall cid before page limit,
        let w' := snd (MessageController.get_messages_before_timestamp cid before
                         page limit w) in
        tables w' = tables w
        /\ log w' = log w ++ [SelectMessagesBefore cid (cql_encode_datetime before) limit])
  /\ (forall uid page limit,
        let w' := snd (ConversationController.get_user_conversations uid page limit w) in
        tables w' = tables w /\ log w' = log w ++ [SelectSummaries uid limit])
  /\ (forall cid,
        let w' := snd (ConversationController.get_conversation cid w) in
        tables w' = tables w /\ log w' = log w ++ [SelectMetadata cid]).
Proof.
  repeat split.
  - unfold MessageController.get_conversation_messages,
      MessageModel.get_conversation_messages, try_except, bind, execute, ret, raise.
    destruct (faults w (length (log w))); simpl; [reflexivity|].
    destruct (limit_rows _ _); reflexivity.
  - unfold MessageController.get_conversation_messages,
      MessageModel.get_conversation_messages, try_except, bind, execute, ret, raise.
    destruct (faults w (length (log w))); simpl; [reflexivity|].
    destruct (limit_rows _ _); reflexivity.
  - unfold MessageController.get_messages_before_timestamp,
      MessageModel.get_messages_before_timestamp, try_except, bind, execute, ret, raise.
    destruct (faults w (length (log w))); simpl; [reflexivity|].
    destruct (limit_rows _ _); reflexivity.
  - unfold MessageController.get_messages_before_timestamp,
      MessageModel.get_messages_before_timestamp, try_except, bind, execute, ret, raise.
    destruct (faults w (length (log w))); simpl; [reflexivity|].
    destruct (limit_rows _ _); reflexivity.
  - unfold ConversationController.get_user_conversations,
      ConversationModel.get_user_conversations, try_except, bind, execute, ret, raise.
    destruct (faults w (length (log w))); simpl; [reflexivity|].
    destruct (limit_rows _ _); reflexivity.
  - unfold ConversationController.get_user_conversations,
      ConversationModel.get_user_conversations, try_except, bind, execute, ret, raise.
    destruct (faults w (length (log w))); simpl; [reflexivity|].
    destruct (limit_rows _ _); reflexivity.
  - unfold ConversationController.get_conversation,
      ConversationModel.get_conversation, try_except, bind, execute, ret, raise.
    destruct (faults w (length (log w))) as [[]|]; simpl; try reflexivity.
    destruct (conversation_metadata (tables w) !! cid) as [c|]; simpl; [|reflexivity].
    destruct (md_created_at c); simpl; [|reflexivity].
    unfold Schemas.make_ConversationResponse, bind. simpl.
    destruct (md_user1_id c), (md_user2_id c); reflexivity.
  - unfold ConversationController.get_conversation,
      ConversationModel.get_conversation, try_except, bind, execute, ret, raise.
    destruct (faults w (length (log w))) as [[]|]; simpl; try reflexivity.
    destruct (conversation_metadata (tables w) !! cid) as [c|]; simpl; [|reflexivity].
    destruct (md_created_at c); simpl; [|reflexivity].
    unfold Schemas.make_ConversationResponse, bind. simpl.
    destruct (md_user1_id c), (md_user2_id c); reflexivity.
Qed.
End reads_are_pure.

(** ** Invariants of the tables *)

Lemma keeps_ret_any {A} P (a : A) : keeps P (ret a).
Proof. intros w HP. exact HP. Qed.

Lemma keeps_bind_any {A B} P (c : M A) (k : A -> M B) :
  keeps P c -> (forall a, keeps P (k a)) -> keeps P (bind c k).
Proof.
  intros Hc Hk w HP. unfold bind. specialize (Hc w HP).
  destruct (c w) as [[e|a] w1]; [exact Hc|]. apply Hk. exact Hc.
Qed.

Lemma keeps_execute_any P q :
  (forall d, P d -> P (snd (run_query q d))) -> keeps P (execute q).
Proof.
  intros Hq w HP. unfold execute.
  destruct (faults w (length (log w))); simpl; auto.
Qed.

Ltac keeps_exec :=
  match goal with
  | |- keeps ?P (execute ?q) => apply (keeps_execute_any P q)
  end.

Lemma keeps_utcnow_any P : keeps P utcnow.
Proof. intros w HP. exact HP. Qed.

Lemma keeps_uuid4_any P : keeps P uuid4.
Proof. intros w HP. exact HP. Qed.

Lemma canonical_le a b : (canonical a b).1 <= (canonical a b).2.
Proof. unfold canonical. case_decide; simpl; lia. Qed.

(** Resolution, however it ends, writes at most the lookup row of its own
    pair, and only when that row is missing. *)
Lemma create_or_get_conversation_frame a b w :
  let w' := snd (ConversationModel.create_or_get_conversation a b w) in
  messages_by_conversation (tables w') = messages_by_conversation (tables w)
  /\ conversations_by_user (tables w') = conversations_by_user (tables w)
  /\ (forall p, p <> canonical a b \/ is_Some (user_conversations_lookup (tables w) !! p) ->
        user_conversations_lookup (tables w') !! p
        = user_conversations_lookup (tables w) !! p).
Proof.
  rewrite create_or_get_conversation_unfold.
  destruct (canonical a b) as [lo hi] eqn:Hcan. simpl.
  unfold bind, execute, utcnow, time_ms, ret.
  destruct (faults w (length (log w))); simpl; [auto|].
  destruct (user_conversations_lookup (tables w) !! (lo, hi)) as [found|] eqn:Hfound;
    simpl; [auto|].
  assert (Hp : forall p, p <> (lo, hi) \/ is_Some (user_conversations_lookup (tables w) !! p) ->
                         p <> (lo, hi)).
  { intros p [Hne|[x Hx]]; [exact Hne|]. intros ->. congruence. }
  destruct (faults w (length (log w ++ [SelectLookup lo hi]))); simpl; [auto|].
  destruct (faults w _); simpl;
    (split; [reflexivity|split; [reflexivity|]]);
    intros p Hcase; apply lookup_insert_ne; intros <-; exact (Hp _ Hcase eq_refl).
Qed.

(** A resolution that finds the lookup row of its pair returns that row. *)
Lemma create_or_get_conversation_found a b w cid cid' w' :
  user_conversations_lookup (tables w) !! canonical a b = Some cid ->
  ConversationModel.create_or_get_conversation a b w = (inr cid', w') ->
  cid' = cid /\ tables w' = tables w.
Proof.
  rewrite create_or_get_conversation_unfold.
  destruct (canonical a b) as [lo hi]; simpl.
  intros Hfound Hrun. step_in Hrun. exec_in Hc.
  rewrite Hfound in Hrows. injection Hrows as <-.
  injection Hrun as <- <-. subst. auto.
Qed.

Section sends.
Context `{Runtime}.

(** The tables a send starts its fan-out from: those left by resolution. *)
Lemma create_message_lookup sender receiver content conv w m w' :
  MessageModel.create_message sender receiver content conv w = (inr m, w') ->
  conv = None ->
  user_conversations_lookup (tables w') !! canonical sender receiver
  = Some (MessageModel.conversation_id m).
Proof.
  intros Hrun ->.
  destruct (create_message_inr _ _ _ _ _ _ _ Hrun) as (cid & w0 & Hm & Ht & _ & Hconv).
  simpl in Hm, Ht, Hconv. subst m. simpl. rewrite Ht. simpl.
  apply create_or_get_conversation_lookup in Hconv. exact Hconv.
Qed.

(** X3: Once a pair of users has exchanged a message, every later send
    between the two, in either direction, lands in the same conversation,
    whatever happened to the store in between as long as the lookup row of
    the pair is still there. *)
Theorem sends_share_one_conversation a b content1 content2 w m1 w1 m2 w2 :
  MessageModel.create_message a b content1 None w = (inr m1, w1) ->
  MessageModel.create_message b a content2 None w1 = (inr m2, w2) ->
  MessageModel.conversation_id m2 = MessageModel.conversation_id m1
  /\ MessageModel.sender_id m2 = MessageModel.receiver_id m1
  /\ user_conversations_lookup (tables w2) = user_conversations_lookup (tables w1).
Proof.
  intros Hfirst Hsecond.
  pose proof (create_message_lookup _ _ _ _ _ _ _ Hfirst eq_refl) as Hrow.
  destruct (create_message_inr _ _ _ _ _ _ _ Hfirst) as (c1 & _ & Hm1 & _).
  destruct (create_message_inr _ _ _ _ _ _ _ Hsecond) as (c2 & w0 & Hm2 & Ht & _ & Hconv).
  simpl in Hm1, Hm2, Ht, Hconv. subst m1 m2. simpl in *.
  rewrite canonical_comm in Hrow.
  eapply create_or_get_conversation_found in Hconv as [-> Hsame]; [|exact Hrow].
  simpl in Hsame. rewrite Ht, Hsame. auto.
Qed.

(** The message and summary tables after a successful send. *)
Lemma create_message_tables sender receiver content conv w m w' :
  MessageModel.create_message sender receiver content conv w = (inr m, w') ->
  exists cid,
    let ts := clock w (ticks w) in
    m = MessageModel.MessageDict (str_uuid (uuids w (drawn w))) cid sender receiver
          content (datetime_isoformat (Instant ts (micros w (ticks w))))
    /\ messages_by_conversation (tables w')
       = <[(cid, ts, uuids w (drawn w)) := MessageCols sender receiver content]>
           (messages_by_conversation (tables w))
    /\ conversations_by_user (tables w')
       = <[(receiver, ts, cid) := SummaryCols sender content]>
           (<[(sender, ts, cid) := SummaryCols receiver content]>
              (conversations_by_user (tables w))).
Proof.
  intros Hrun.
  destruct (create_message_inr _ _ _ _ _ _ _ Hrun) as (cid & w0 & Hm & Ht & _ & Hconv).
  simpl in Hm, Ht. exists cid. simpl.
  assert (Hsame : messages_by_conversation (tables w0)
                  = messages_by_conversation (tables w)
                  /\ conversations_by_user (tables w0)
                     = conversations_by_user (tables w)).
  { destruct conv as [c|].
    - destruct Hconv as (_ & -> & _). auto.
    - pose proof (create_or_get_conversation_frame sender receiver
                    (World (tables w) (clock w) (micros w) (S (ticks w)) (uuids w) (S (drawn w))
                       (faults w) (log w))) as Hframe.
      rewrite Hconv in Hframe. simpl in Hframe. split; apply Hframe. }
  destruct Hsame as [Hmsgs Hsums].
  rewrite Ht. simpl. rewrite Hmsgs, Hsums. auto.
Qed.

(** X2: A send never removes or rewrites another message: the message table
    after a successful send is the one before with the new row added under
    (conversation_id, created_at, message_id); when that key is new, the
    table holds exactly one row more. *)
Theorem send_adds_one_message sender receiver content conv w m w' :
  MessageModel.create_message sender receiver content conv w = (inr m, w') ->
  let key := (MessageModel.conversation_id m, clock w (ticks w), uuids w (drawn w)) in
  messages_by_conversation (tables w')
  = <[key := MessageCols sender receiver content]> (messages_by_conversation (tables w))
  /\ (forall k, k <> key ->
        messages_by_conversation (tables w') !! k
        = messages_by_conversation (tables w) !! k)
  /\ (messages_by_conversation (tables w) !! key = None ->
      size (messages_by_conversation (tables w'))
      = S (size (messages_by_conversation (tables w)))).
Proof.
  intros Hrun.
  destruct (create_message_tables _ _ _ _ _ _ _ Hrun) as (cid & Hm & Hmsgs & _).
  simpl in Hm, Hmsgs. subst m. simpl. rewrite Hmsgs.
  split; [reflexivity|]. split.
  - intros k Hk. apply lookup_insert_ne. congruence.
  - intros Hnew. apply map_size_insert_None. exact Hnew.
Qed.
End sends.

(** X5: The lookup table only ever gets keys with the smaller user id first:
    resolution and sends keep [lookup_canonical], however they end. *)
Theorem lookup_keys_stay_canonical `{Runtime} :
  (forall a b, keeps lookup_canonical (ConversationModel.create_or_get_conversation a b))
  /\ (forall sender receiver content conv,
        keeps lookup_canonical
          (MessageModel.create_message sender receiver content conv)).
Proof.
  assert (Hres : forall a b,
             keeps lookup_canonical (ConversationModel.create_or_get_conversation a b)).
  { intros a b. rewrite create_or_get_conversation_unfold.
    pose proof (canonical_le a b) as Hle.
    destruct (canonical a b) as [lo hi]; simpl in *.
    apply keeps_bind_any; [keeps_exec; auto|].
    intros [|found ?]; [|apply keeps_ret_any].
    apply keeps_bind_any; [apply keeps_utcnow_any|intros ?].
    apply keeps_bind_any; [apply keeps_utcnow_any|intros ?].
    apply keeps_bind_any.
    { keeps_exec. intros d Hd x y cid. simpl.
      destruct (decide ((lo, hi) = (x, y))) as [[= <- <-]|Hne].
      - intros _. exact Hle.
      - rewrite lookup_insert_ne by exact Hne. apply Hd. }
    intros ?. apply keeps_bind_any; [keeps_exec; auto|intros ?].
    apply keeps_ret_any. }
  split; [exact Hres|].
  intros sender receiver content conv. unfold MessageModel.create_message.
  apply keeps_bind_any; [apply keeps_utcnow_any|intros ?].
  apply keeps_bind_any; [apply keeps_uuid4_any|intros ?].
  apply keeps_bind_any; [destruct conv; [apply keeps_ret_any|apply Hres]|intros ?].
  repeat (apply keeps_bind_any; [keeps_exec; auto|intros ?]).
  apply keeps_ret_any.
Qed.

(** X4: Once a pair of users is mapped to a conversation, neither resolution
    nor a send changes that mapping, however the operation ends. *)
Theorem lookup_rows_are_never_rewritten `{Runtime} (p : Z * Z) (cid : Z) :
  (forall a b,
      keeps (fun d => user_conversations_lookup d !! p = Some cid)
        (ConversationModel.create_or_get_conversation a b))
  /\ (forall sender receiver content conv,
        keeps (fun d => user_conversations_lookup d !! p = Some cid)
          (MessageModel.create_message sender receiver content conv)).
Proof.
  assert (Hres : forall a b,
             keeps (fun d => user_conversations_lookup d !! p = Some cid)
               (ConversationModel.create_or_get_conversation a b)).
  { intros a b w Hrow.
    destruct (create_or_get_conversation_frame a b w) as (_ & _ & Hframe).
    rewrite Hframe by (right; eauto). exact Hrow. }
  split; [exact Hres|].
  intros sender receiver content conv. unfold MessageModel.create_message.
  apply keeps_bind_any; [apply keeps_utcnow_any|intros ?].
  apply keeps_bind_any; [apply keeps_uuid4_any|intros ?].
  apply keeps_bind_any; [destruct conv; [apply keeps_ret_any|apply Hres]|intros ?].
  repeat (apply keeps_bind_any; [keeps_exec; auto|intros ?]).
  apply keeps_ret_any.
Qed.

(** ** Reading back what was written *)

Lemma message_partition_complete d cid row :
  stored_message d cid row -> row ∈ message_partition d cid.
Proof.
  intros [Hcid Hrow]. unfold message_partition.
  rewrite merge_sort_Permutation.
  apply list_elem_of_filter. split; [exact Hcid|].
  apply list_elem_of_fmap.
  exists ((cid, mr_created_at row, mr_message_id row),
          MessageCols (mr_sender_id row) (mr_receiver_id row) (mr_content row)).
  split.
  - destruct row. simpl in *. subst. reflexivity.
  - apply elem_of_map_to_list. exact Hrow.
Qed.

#[global] Instance summary_clustering_total : Total summary_clustering.
Proof.
  intros r1 r2. unfold summary_clustering.
  destruct (Z.lt_trichotomy (sr_last_message_at r1) (sr_last_message_at r2)) as [?|[?|?]];
    destruct (Z.le_ge_cases (sr_conversation_id r1) (sr_conversation_id r2));
    auto 6 with lia.
Qed.

#[global] Instance summary_clustering_trans : Transitive summary_clustering.
Proof. intros r1 r2 r3. unfold summary_clustering. lia. Qed.

Lemma summary_partition_sorted d uid :
  StronglySorted summary_clustering (summary_partition d uid).
Proof. apply StronglySorted_merge_sort; apply _. Qed.

Lemma summary_partition_stored d uid :
  Forall (stored_summary d uid) (summary_partition d uid).
Proof.
  apply Forall_forall. intros row Hin. unfold summary_partition in Hin.
  rewrite merge_sort_Permutation in Hin.
  apply list_elem_of_filter in Hin as [Huid Hin].
  apply list_elem_of_fmap in Hin as ([[[u t] c] [o b]] & -> & Hin).
  apply elem_of_map_to_list in Hin. simpl in *. subst u.
  split; [reflexivity|exact Hin].
Qed.

Lemma summary_partition_complete d uid row :
  stored_summary d uid row -> row ∈ summary_partition d uid.
Proof.
  intros [Huid Hrow]. unfold summary_partition.
  rewrite merge_sort_Permutation.
  apply list_elem_of_filter. split; [exact Huid|].
  apply list_elem_of_fmap.
  exists ((uid, sr_last_message_at row, sr_conversation_id row),
          SummaryCols (sr_other_user_id row) (sr_last_message_content row)).
  split.
  - destruct row. simpl in *. subst. reflexivity.
  - apply elem_of_map_to_list. exact Hrow.
Qed.

(** In a sorted list, a member that only itself may precede is the head. *)
Lemma StronglySorted_head {A} (R : relation A) l x :
  StronglySorted R l -> x ∈ l -> (forall y, y ∈ l -> R y x -> y = x) ->
  head l = Some x.
Proof.
  intros Hs Hin Hmax. destruct Hs as [|h t Hs Hall]; [inversion Hin|].
  simpl. f_equal. apply elem_of_cons in Hin as [->|Hint]; [reflexivity|].
  apply Hmax; [left|]. rewrite Forall_forall in Hall. auto.
Qed.

Lemma head_take_pos {A} (n : nat) (l : list A) : (0 < n)%nat -> head (take n l) = head l.
Proof. destruct n; [lia|]. destruct l; reflexivity. Qed.

Lemma head_fmap {A B} (f : A -> B) (l : list A) : head (f <$> l) = f <$> head l.
Proof. destruct l; reflexivity. Qed.

Section read_after_write.
Context `{Runtime}.
Import Schemas.

(** What the list operations return when the store answers. *)
Lemma get_conversation_messages_run cid page limit w :
  faults w (length (log w)) = None ->
  0 < limit + (page - 1) * limit ->
  MessageController.get_conversation_messages cid page limit w
  = (inr {| messages := make_MessageResponse <$>
              (MessageModel.message_dict_of <$>
                 message_page (tables w) cid limit ((page - 1) * limit));
            pm_has_more :=
              bool_decide (Z.of_nat (length (MessageModel.message_dict_of <$>
                 message_page (tables w) cid limit ((page - 1) * limit))) = limit) |},
     logged w (SelectMessages cid (limit + (page - 1) * limit)) (tables w)).
Proof.
  intros Hok Hpos.
  unfold MessageController.get_conversation_messages,
    MessageModel.get_conversation_messages.
  rewrite try_except_failed_with. unfold bind.
  rewrite (execute_run _ _ Hok). simpl.
  unfold limit_rows. rewrite decide_True by exact Hpos. reflexivity.
Qed.

Lemma get_messages_before_timestamp_run cid before page limit w :
  faults w (length (log w)) = None ->
  0 < limit ->
  MessageController.get_messages_before_timestamp cid before page limit w
  = (let rows := take (Z.to_nat limit)
                   (filter (fun r => mr_created_at r < cql_encode_datetime before)
                      (message_partition (tables w) cid)) in
     inr {| messages := make_MessageResponse <$> (MessageModel.message_dict_of <$> rows);
            pm_has_more :=
              bool_decide (Z.of_nat (length (MessageModel.message_dict_of <$> rows))
                           = limit) |},
     logged w (SelectMessagesBefore cid (cql_encode_datetime before) limit) (tables w)).
Proof.
  intros Hok Hpos.
  unfold MessageController.get_messages_before_timestamp,
    MessageModel.get_messages_before_timestamp.
  rewrite try_except_failed_with. unfold bind.
  rewrite (execute_run _ _ Hok). simpl.
  unfold limit_rows. rewrite decide_True by exact Hpos. reflexivity.
Qed.

Lemma get_user_conversations_run uid page limit w :
  faults w (length (log w)) = None ->
  0 < limit ->
  ConversationController.get_user_conversations uid page limit w
  = (let rows := take (Z.to_nat limit) (summary_partition (tables w) uid) in
     inr {| conversations := make_ConversationListItem <$>
              (ConversationModel.summary_dict_of <$> rows);
            pc_has_more :=
              bool_decide (Z.of_nat (length (ConversationModel.summary_dict_of <$> rows))
                           = limit) |},
     logged w (SelectSummaries uid limit) (tables w)).
Proof.
  intros Hok Hpos.
  unfold ConversationController.get_user_conversations,
    ConversationModel.get_user_conversations.
  rewrite try_except_failed_with. unfold bind.
  rewrite (execute_run _ _ Hok). simpl.
  unfold limit_rows. rewrite decide_True by exact Hpos. reflexivity.
Qed.

(** X6: After a successful send whose stored time is later than that of
    every message already in the conversation, the first page of the
    conversation starts with the message just sent: the id, the users and
    the content the send returned, and the time as it was stored, in
    whole milliseconds. *)
Theorem sent_message_is_listed_first sender receiver content conv w m w' limit :
  MessageModel.create_message sender receiver content conv w = (inr m, w') ->
  messages_older_than (tables w) (MessageModel.conversation_id m) (clock w (ticks w)) ->
  faults w' (length (log w')) = None ->
  1 <= limit ->
  exists r w'',
    MessageController.get_conversation_messages (MessageModel.conversation_id m) 1 limit w'
    = (inr r, w'')
    /\ head (messages r)
       = Some {| message_id := MessageModel.message_id m;
                 sender_id := sender;
                 receiver_id := receiver;
                 conversation_id := MessageModel.conversation_id m;
                 content := content;
                 timestamp := isoformat (clock w (ticks w)) |}.
Proof.
  intros Hrun Hold Hok Hlim.
  destruct (create_message_tables _ _ _ _ _ _ _ Hrun) as (cid & Hm & Hmsgs & _).
  simpl in Hm, Hmsgs. subst m. simpl in *.
  remember (clock w (ticks w)) as ts eqn:Hts0.
  remember (uuids w (drawn w)) as mid eqn:Hmid0.
  clear Hts0 Hmid0 Hrun.
  rewrite get_conversation_messages_run by (exact Hok || lia).
  eexists _, _. split; [reflexivity|]. simpl.
  rewrite !head_fmap. unfold message_page.
  replace ((1 - 1) * limit) with 0 by lia.
  rewrite decide_False by lia.
  rewrite head_take_pos by lia.
  rewrite (StronglySorted_head message_clustering _
             (MessageRow cid ts mid sender receiver content)).
  - reflexivity.
  - apply message_partition_sorted.
  - apply message_partition_complete. split; [reflexivity|]. simpl.
    rewrite Hmsgs. apply lookup_insert_eq.
  - intros y Hy Hord.
    pose proof (message_partition_stored (tables w') cid) as Hall.
    rewrite Forall_forall in Hall. destruct (Hall y Hy) as [Hcid Hrow].
    rewrite Hmsgs in Hrow.
    destruct (decide ((cid, ts, mid) = (cid, mr_created_at y, mr_message_id y)))
      as [Heq|Hne].
    + rewrite <- Heq, lookup_insert_eq in Hrow.
      injection Heq as Hts Hmid. injection Hrow as Hs Hr Hc.
      destruct y. simpl in *. subst. reflexivity.
    + rewrite lookup_insert_ne in Hrow by exact Hne.
      specialize (Hold _ _ Hrow eq_refl). simpl in Hold.
      unfold message_clustering in Hord. simpl in Hord. lia.
Qed.

(** X7: After a successful send whose stored time is later than that of
    every summary row a participant holds, that participant's conversation
    list starts with this conversation, naming the other participant and
    showing the message just sent, with the time as it was stored, in
    whole milliseconds. *)
Theorem sent_message_tops_conversation_list sender receiver content conv w m w'
    u page limit :
  MessageModel.create_message sender receiver content conv w = (inr m, w') ->
  u = sender \/ u = receiver ->
  summaries_older_than (tables w) u (clock w (ticks w)) ->
  faults w' (length (log w')) = None ->
  1 <= limit ->
  exists r w'',
    ConversationController.get_user_conversations u page limit w' = (inr r, w'')
    /\ head (conversations r)
       = Some {| li_conversation_id := MessageModel.conversation_id m;
                 other_user_id := if decide (u = receiver) then sender else receiver;
                 li_last_updated := isoformat (clock w (ticks w));
                 last_message := content |}.
Proof.
  intros Hrun Hu Hold Hok Hlim.
  destruct (create_message_tables _ _ _ _ _ _ _ Hrun) as (cid & Hm & _ & Hsums).
  simpl in Hm, Hsums. subst m. simpl in *.
  remember (clock w (ticks w)) as ts eqn:Hts0. clear Hts0 Hrun.
  rewrite get_user_conversations_run by (exact Hok || lia).
  eexists _, _. split; [reflexivity|]. simpl.
  rewrite !head_fmap, head_take_pos by lia.
  set (other := if decide (u = receiver) then sender else receiver).
  rewrite (StronglySorted_head summary_clustering _
             (SummaryRow u ts cid other content)).
  - reflexivity.
  - apply summary_partition_sorted.
  - apply summary_partition_complete. split; [reflexivity|]. simpl.
    rewrite Hsums. unfold other. case_decide as Hr.
    + subst u. apply lookup_insert_eq.
    + destruct Hu as [->|?]; [|contradiction].
      rewrite lookup_insert_ne by congruence. apply lookup_insert_eq.
  - intros y Hy Hord.
    pose proof (summary_partition_stored (tables w') u) as Hall.
    rewrite Forall_forall in Hall. destruct (Hall y Hy) as [Huid Hrow].
    rewrite Hsums in Hrow.
    destruct (decide ((receiver, ts, cid) = (u, sr_last_message_at y, sr_conversation_id y)))
      as [Heq|Hne].
    { rewrite <- Heq, lookup_insert_eq in Hrow.
      injection Heq as Hru Hts Hc. injection Hrow as Ho Hb.
      unfold other. rewrite decide_True by congruence.
      destruct y. simpl in *. subst. reflexivity. }
    rewrite lookup_insert_ne in Hrow by exact Hne.
    destruct (decide ((sender, ts, cid) = (u, sr_last_message_at y, sr_conversation_id y)))
      as [Heq|Hne'].
    { rewrite <- Heq, lookup_insert_eq in Hrow.
      injection Heq as Hsu Hts Hc. injection Hrow as Ho Hb.
      unfold other. rewrite decide_False by congruence.
      destruct y. simpl in *. subst. reflexivity. }
    rewrite lookup_insert_ne in Hrow by exact Hne'.
    specialize (Hold _ _ Hrow eq_refl). simpl in Hold.
    unfold summary_clustering in Hord. simpl in Hord. lia.
Qed.
End read_after_write.

(** ** Pages *)

Section pages.
Context `{Runtime}.
Import Schemas.

(** X8: Page [page] of size [limit] is the slice of the conversation, newest
    first, that starts after the (page - 1) * limit newest messages;
    pages neither overlap nor skip a message. [has_more] says that the
    conversation has at least page * limit messages, so it is also set
    when the page is full and is the last one. *)
Theorem page_is_a_slice cid page limit w :
  faults w (length (log w)) = None ->
  1 <= page -> 1 <= limit ->
  exists r w',
    MessageController.get_conversation_messages cid page limit w = (inr r, w')
    /\ messages r
       = make_MessageResponse <$>
           (MessageModel.message_dict_of <$>
              take (Z.to_nat limit)
                (drop (Z.to_nat ((page - 1) * limit)) (message_partition (tables w) cid)))
    /\ (pm_has_more r = true
        <-> page * limit <= Z.of_nat (length (message_partition (tables w) cid))).
Proof.
  intros Hok Hpage Hlim.
  assert (Hoff : 0 <= (page - 1) * limit) by nia.
  assert (Hpl : page * limit = limit + (page - 1) * limit) by lia.
  rewrite get_conversation_messages_run by (exact Hok || lia).
  eexists _, _. split; [reflexivity|]. simpl.
  rewrite Hpl. generalize dependent ((page - 1) * limit). intros offset Hoff _.
  set (part := message_partition (tables w) cid).
  assert (Hpage_rows : message_page (tables w) cid limit offset
                       = take (Z.to_nat limit) (drop (Z.to_nat offset) part)).
  { unfold message_page. fold part. case_decide.
    - rewrite take_drop_commute. f_equal. f_equal. lia.
    - replace offset with 0 by lia. simpl. rewrite Z.add_0_r. reflexivity. }
  rewrite Hpage_rows. split; [reflexivity|].
  rewrite bool_decide_eq_true, !length_fmap, length_take, length_drop. lia.
Qed.

(** X9: No page comes back when page * limit is not positive (a page
    number below 1 with a positive limit, a limit of 0), nor, for the two
    other list operations, when the limit is below 1: the store refuses
    the LIMIT and the caller gets the generic failure. *)
Theorem nonpositive_page_or_limit_fails w :
  (forall cid page limit,
      page * limit <= 0 ->
      exists detail,
        fst (MessageController.get_conversation_messages cid page limit w)
        = inl (HTTPException HTTP_500_INTERNAL_SERVER_ERROR detail))
  /\ (forall cid before page limit,
        limit <= 0 ->
        exists detail,
          fst (MessageController.get_messages_before_timestamp cid before page limit w)
          = inl (HTTPException HTTP_500_INTERNAL_SERVER_ERROR detail))
  /\ (forall uid page limit,
        limit <= 0 ->
        exists detail,
          fst (ConversationController.get_user_conversations uid page limit w)
          = inl (HTTPException HTTP_500_INTERNAL_SERVER_ERROR detail)).
Proof.
  repeat split.
  - intros cid page limit Hpl.
    unfold MessageController.get_conversation_messages,
      MessageModel.get_conversation_messages.
    rewrite try_except_failed_with. unfold bind, execute.
    destruct (faults w (length (log w))); simpl; [eauto|].
    unfold limit_rows. rewrite decide_False by lia. simpl. eauto.
  - intros cid before page limit Hl.
    unfold MessageController.get_messages_before_timestamp,
      MessageModel.get_messages_before_timestamp.
    rewrite try_except_failed_with. unfold bind, execute.
    destruct (faults w (length (log w))); simpl; [eauto|].
    unfold limit_rows. rewrite decide_False by lia. simpl. eauto.
  - intros uid page limit Hl.
    unfold ConversationController.get_user_conversations,
      ConversationModel.get_user_conversations.
    rewrite try_except_failed_with. unfold bind, execute.
    destruct (faults w (length (log w))); simpl; [eauto|].
    unfold limit_rows. rewrite decide_False by lia. simpl. eauto.
Qed.

Lemma get_messages_before_timestamp_inr cid before page limit w r w' :
  MessageController.get_messages_before_timestamp cid before page limit w = (inr r, w') ->
  0 < limit /\ faults w (length (log w)) = None.
Proof.
  unfold MessageController.get_messages_before_timestamp,
    MessageModel.get_messages_before_timestamp.
  intros Hrun. apply try_except_raise_inr in Hrun.
  step_in Hrun. step_in Hc. exec_in Hc0.
  apply limit_rows_inr in Hrows as [Hpos _]. auto.
Qed.

Lemma take_short {A} (n : nat) (l : list A) :
  length (take n l) <> n -> take n l = l.
Proof. rewrite length_take. intros Hlen. apply take_ge. lia. Qed.

(** X10: When [has_more] comes back false, nothing eligible was left out:
    the page of [get_messages_before_timestamp] holds every message of the
    conversation stored with a time below the whole milliseconds of the
    given time (the driver drops the microseconds of the given time, so a
    message stored in that very millisecond is not eligible), and the
    page of [get_user_conversations] holds every summary row of the user. *)
Theorem no_more_means_complete w :
  (forall cid before page limit r w',
      MessageController.get_messages_before_timestamp cid before page limit w
      = (inr r, w') ->
      pm_has_more r = false ->
      forall row,
        stored_message (tables w) cid row ->
        mr_created_at row < cql_encode_datetime before ->
        make_MessageResponse (MessageModel.message_dict_of row) ∈ messages r)
  /\ (forall uid page limit r w',
        ConversationController.get_user_conversations uid page limit w = (inr r, w') ->
        pc_has_more r = false ->
        forall row,
          stored_summary (tables w) uid row ->
          make_ConversationListItem (ConversationModel.summary_dict_of row)
          ∈ conversations r).
Proof.
  split.
  - intros cid before page limit r w' Hrun Hno row Hrow Hlt.
    destruct (get_messages_before_timestamp_inr _ _ _ _ _ _ _ Hrun) as [Hpos Hok].
    rewrite get_messages_before_timestamp_run in Hrun by assumption.
    injection Hrun as <- _. simpl in *.
    apply bool_decide_eq_false in Hno. rewrite length_fmap in Hno.
    rewrite take_short by lia.
    do 2 (apply list_elem_of_fmap_2).
    apply list_elem_of_filter. split; [exact Hlt|].
    apply message_partition_complete. exact Hrow.
  - intros uid page limit r w' Hrun Hno row Hrow.
    apply get_user_conversations_inr in Hrun as [Hpos ->]. simpl in *.
    apply bool_decide_eq_false in Hno. rewrite length_fmap in Hno.
    rewrite take_short by lia.
    do 2 (apply list_elem_of_fmap_2).
    apply summary_partition_complete. exact Hrow.
Qed.
End pages.

(** ** Resolution and metadata *)

(** Run the next statement of a computation whose store answers. *)
Ltac run_statement Hok :=
  unfold bind at 1;
  rewrite execute_run
    by (simpl; apply Hok; simpl; rewrite ?length_app; simpl; lia);
  simpl.

Section metadata.
Context `{Runtime}.
Import Schemas.

(** What resolution does for a pair without a lookup row, when the store
    answers its three statements. *)
Lemma create_or_get_conversation_fresh a b w :
  user_conversations_lookup (tables w) !! canonical a b = None ->
  next_statements_succeed w 3 ->
  let lo := (canonical a b).1 in
  let hi := (canonical a b).2 in
  let cid := derived_id (clock w (S (ticks w))) lo hi in
  ConversationModel.create_or_get_conversation a b w
  = (inr cid,
     World
       (set_metadata
          (set_lookup (tables w) (<[(lo, hi) := cid]> (user_conversations_lookup (tables w))))
          (<[cid := insert_metadata_cols (conversation_metadata (tables w) !! cid) lo hi
                      (clock w (ticks w))]> (conversation_metadata (tables w))))
       (clock w) (micros w) (S (S (ticks w))) (uuids w) (drawn w) (faults w)
       (log w ++ [SelectLookup lo hi; InsertLookup lo hi cid;
                  InsertMetadata cid lo hi (clock w (ticks w))])).
Proof.
  intros Hnone Hok. rewrite create_or_get_conversation_unfold.
  destruct (canonical a b) as [lo hi]. simpl in *.
  run_statement Hok. rewrite Hnone.
  unfold bind at 1. simpl. unfold bind at 1. simpl.
  run_statement Hok. run_statement Hok.
  unfold ret, logged, derived_id. simpl. rewrite <- !app_assoc. reflexivity.
Qed.

(** X13: Resolving a pair that has no conversation yet, when the store answers,
    returns a conversation whose participants are the two users with the
    smaller id first and whose [created_at] and [last_updated] both render
    the time resolution started; its id is derived from the second clock
    reading and the two user ids. *)
Theorem new_conversation_response a b w :
  user_conversations_lookup (tables w) !! canonical a b = None ->
  next_statements_succeed w 4 ->
  exists w',
    ConversationController.create_or_get_conversation a b w
    = (inr {| c_conversation_id :=
                derived_id (clock w (S (ticks w))) (canonical a b).1 (canonical a b).2;
              participant_ids := [(canonical a b).1; (canonical a b).2];
              created_at := isoformat (clock w (ticks w));
              last_updated := isoformat (clock w (ticks w)) |}, w')
    /\ issued_since (log w) w'
       = [SelectLookup (canonical a b).1 (canonical a b).2;
          InsertLookup (canonical a b).1 (canonical a b).2
            (derived_id (clock w (S (ticks w))) (canonical a b).1 (canonical a b).2);
          InsertMetadata
            (derived_id (clock w (S (ticks w))) (canonical a b).1 (canonical a b).2)
            (canonical a b).1 (canonical a b).2 (clock w (ticks w));
          SelectMetadata
            (derived_id (clock w (S (ticks w))) (canonical a b).1 (canonical a b).2)].
Proof.
  intros Hnone Hok.
  unfold ConversationController.create_or_get_conversation.
  rewrite try_except_failed_with.
  erewrite bind_run_inr
    by (apply create_or_get_conversation_fresh;
        [exact Hnone|intros n Hn; apply Hok; lia]).
  unfold ConversationModel.get_conversation.
  unfold bind at 1. run_statement Hok. rewrite lookup_insert_eq. simpl.
  eexists. split; [reflexivity|].
  unfold issued_since. simpl. rewrite <- app_assoc, drop_app_length. reflexivity.
Qed.

(** X14: [ConversationController.get_conversation]: an id without a metadata row
    is reported as 404 "Conversation not found"; an error of the store is
    reported as a 500; a row written by resolution is returned with its
    participants and times. *)
Theorem get_conversation_outcomes cid w :
  (faults w (length (log w)) = None ->
   conversation_metadata (tables w) !! cid = None ->
   fst (ConversationController.get_conversation cid w)
   = inl (HTTPException HTTP_404_NOT_FOUND "Conversation not found"))
  /\ (forall kind msg,
        faults w (length (log w)) = Some (DriverError kind msg) ->
        fst (ConversationController.get_conversation cid w)
        = inl (failed_with "Failed to get conversation: " (DriverError kind msg)))
  /\ (forall u1 u2 created last content,
        faults w (length (log w)) = None ->
        conversation_metadata (tables w) !! cid
        = Some (MetadataCols (Some u1) (Some u2) (Some created) last content) ->
        fst (ConversationController.get_conversation cid w)
        = inr {| c_conversation_id := cid;
                 participant_ids := [u1; u2];
                 created_at := isoformat created;
                 last_updated := isoformat (default created last) |}).
Proof.
  unfold ConversationController.get_conversation, ConversationModel.get_conversation,
    try_except, bind.
  repeat split.
  - intros Hok Hnone. rewrite (execute_run _ _ Hok). simpl. rewrite Hnone. reflexivity.
  - intros kind msg Hfault. rewrite (execute_fault _ _ _ Hfault). reflexivity.
  - intros u1 u2 created last content Hok Hrow.
    rewrite (execute_run _ _ Hok). simpl. rewrite Hrow. simpl.
    destruct last; reflexivity.
Qed.

(** The metadata row of the conversation after a successful send. *)
Lemma create_message_metadata sender receiver content conv w m w' :
  MessageModel.create_message sender receiver content conv w = (inr m, w') ->
  exists cid w0,
    MessageModel.conversation_id m = cid
    /\ conversation_metadata (tables w') !! cid
       = Some (update_metadata_cols (conversation_metadata (tables w0) !! cid)
                 (clock w (ticks w)) content)
    /\ match conv with
       | Some c => cid = c /\ tables w0 = tables w
       | None =>
           ConversationModel.create_or_get_conversation sender receiver
             (World (tables w) (clock w) (micros w) (S (ticks w)) (uuids w) (S (drawn w))
                (faults w) (log w))
           = (inr cid, w0)
       end.
Proof.
  intros Hrun.
  destruct (create_message_inr _ _ _ _ _ _ _ Hrun) as (cid & w0 & Hm & Ht & _ & Hconv).
  simpl in Hm, Ht. exists cid, w0. subst m. simpl.
  split; [reflexivity|]. split.
  - rewrite Ht. simpl. apply lookup_insert_eq.
  - destruct conv; [|exact Hconv]. destruct Hconv as (? & ? & _). auto.
Qed.

(** X15: A send into an explicitly given conversation id updates that
    conversation's last-message time when its metadata row exists:
    [last_updated] then renders the whole milliseconds of the time the
    send returned. When the id has no metadata row, the send still
    succeeds and creates a row without [created_at], and
    [get_conversation] for that id then raises instead of reporting
    not-found. *)
Theorem send_to_given_conversation sender receiver content cid w m w' :
  MessageModel.create_message sender receiver content (Some cid) w = (inr m, w') ->
  faults w' (length (log w')) = None ->
  match conversation_metadata (tables w) !! cid ≫= md_created_at with
  | Some created =>
      exists d,
        fst (ConversationModel.get_conversation cid w') = inr (Some d)
        /\ ConversationModel.created_at d = isoformat created
        /\ ConversationModel.last_updated d = isoformat (clock w (ticks w))
        /\ MessageModel.timestamp m
           = datetime_isoformat (Instant (clock w (ticks w)) (micros w (ticks w)))
  | None =>
      fst (ConversationModel.get_conversation cid w')
      = inl (AttributeError "'NoneType' object has no attribute 'isoformat'")
      /\ exists detail,
           fst (ConversationController.get_conversation cid w')
           = inl (HTTPException HTTP_500_INTERNAL_SERVER_ERROR detail)
  end.
Proof.
  intros Hrun Hok.
  destruct (create_message_metadata _ _ _ _ _ _ _ Hrun) as (c & w0 & _ & Hrow & -> & Hw0).
  rewrite Hw0 in Hrow.
  destruct (create_message_inr _ _ _ _ _ _ _ Hrun) as (c' & _ & Hm & _).
  simpl in Hm. subst m. simpl. clear Hrun Hw0 w0.
  unfold ConversationController.get_conversation, try_except,
    ConversationModel.get_conversation, bind.
  rewrite (execute_run _ _ Hok). simpl. rewrite Hrow. simpl.
  destruct (conversation_metadata (tables w) !! cid) as [old|]; simpl.
  - destruct (md_created_at old) as [created|]; simpl.
    + eexists. split; [reflexivity|]. simpl. auto.
    + split; [reflexivity|]. eauto.
  - split; [reflexivity|]. eauto.
Qed.

End metadata.

(** ** A fan-out that stops half way *)

Lemma create_or_get_conversation_existing a b w cid :
  user_conversations_lookup (tables w) !! canonical a b = Some cid ->
  faults w (length (log w)) = None ->
  ConversationModel.create_or_get_conversation a b w
  = (inr cid, logged w (SelectLookup (canonical a b).1 (canonical a b).2) (tables w)).
Proof.
  intros Hrow Hok. rewrite create_or_get_conversation_unfold.
  destruct (canonical a b) as [lo hi]. simpl in *.
  unfold bind. rewrite (execute_run _ _ Hok). simpl. rewrite Hrow. reflexivity.
Qed.

Lemma length_snoc {A} (l : list A) (x : A) : length (l ++ [x]) = S (length l).
Proof. rewrite length_app. simpl. lia. Qed.

Section partial_fanout.
Context `{Runtime}.
Import Schemas.

(** X17: The writes of a send are not undone when a later one fails. If the
    store fails the first summary write, [send_message] reports a failure
    although the message row is stored and no summary mentions it; if it
    fails the second summary write, the sender's summary is stored and the
    receiver's is not. *)
Theorem failed_send_is_not_rolled_back md cid e w :
  let sender := mcr_sender_id md in
  let receiver := mcr_receiver_id md in
  let ts := clock w (ticks w) in
  let key := (cid, ts, uuids w (drawn w)) in
  let row := MessageCols sender receiver (mcr_content md) in
  user_conversations_lookup (tables w) !! canonical sender receiver = Some cid ->
  faults w (length (log w)) = None ->
  faults w (S (length (log w))) = None ->
  (faults w (S (S (length (log w)))) = Some e ->
   exists w',
     MessageController.send_message md w
     = (inl (failed_with "Failed to send message: " e), w')
     /\ messages_by_conversation (tables w')
        = <[key := row]> (messages_by_conversation (tables w))
     /\ conversations_by_user (tables w') = conversations_by_user (tables w))
  /\ (faults w (S (S (length (log w)))) = None ->
      faults w (S (S (S (length (log w))))) = Some e ->
      exists w',
        MessageController.send_message md w
        = (inl (failed_with "Failed to send message: " e), w')
        /\ messages_by_conversation (tables w')
           = <[key := row]> (messages_by_conversation (tables w))
        /\ conversations_by_user (tables w')
           = <[(sender, ts, cid) := SummaryCols receiver (mcr_content md)]>
               (conversations_by_user (tables w))).
Proof.
  intros sender receiver ts key row Hrow Hf0 Hf1.
  unfold MessageController.send_message, MessageModel.create_message.
  fold sender receiver.
  split.
  - intros Hf2. rewrite try_except_failed_with.
    unfold bind at 1. unfold bind at 1. simpl.
    unfold bind at 1. simpl.
    unfold bind at 1.
    rewrite (create_or_get_conversation_existing sender receiver _ cid)
      by (simpl; assumption).
    unfold bind at 1. rewrite execute_run by (simpl; rewrite length_snoc; exact Hf1).
    simpl.
    unfold bind at 1. rewrite (execute_fault _ _ e)
      by (simpl; rewrite !length_snoc; exact Hf2).
    simpl. eexists. split; [reflexivity|]. simpl. auto.
  - intros Hf2 Hf3. rewrite try_except_failed_with.
    unfold bind at 1. unfold bind at 1. simpl.
    unfold bind at 1. simpl.
    unfold bind at 1.
    rewrite (create_or_get_conversation_existing sender receiver _ cid)
      by (simpl; assumption).
    unfold bind at 1. rewrite execute_run by (simpl; rewrite length_snoc; exact Hf1).
    simpl.
    unfold bind at 1. rewrite execute_run by (simpl; rewrite !length_snoc; exact Hf2).
    simpl.
    unfold bind at 1. rewrite (execute_fault _ _ e)
      by (simpl; rewrite !length_snoc; exact Hf3).
    simpl. eexists. split; [reflexivity|]. simpl. auto.
Qed.
End partial_fanout.

(** ** Connecting to the store *)

Module ConnectionFacts.
Import Connection.





Lemma wait_loop_succeeds outcome k : forall remaining st,
  next_attempts_fail outcome st k ->
  outcome (attempts st + k)%nat = None ->
  (k < remaining)%nat ->
  wait_loop outcome remaining st
  = (inr tt, State true (attempts st + k + 1) (slept st ++ replicate k 5)).
Proof.
  induction k as [|k IH]; intros remaining st Hfail Hok Hrem.
  - destruct remaining as [|remaining]; [lia|]. simpl.
    rewrite Nat.add_0_r in Hok. rewrite Hok.
    rewrite app_nil_r. do 2 f_equal. lia.
  - destruct remaining as [|remaining]; [lia|]. simpl.
    destruct (Hfail 0%nat ltac:(lia)) as [e He]. rewrite Nat.add_0_r in He.
    rewrite He. rewrite (IH remaining).
    + simpl. rewrite <- app_assoc. simpl. do 2 f_equal. lia.
    + intros i Hi. cbn [attempts]. replace (S (attempts st) + i)%nat
        with (attempts st + S i)%nat by lia. apply Hfail. lia.
    + cbn [attempts]. replace (S (attempts st) + k)%nat with (attempts st + S k)%nat by lia.
      exact Hok.
    + lia.
Qed.

Lemma wait_loop_gives_up outcome : forall remaining st,
  next_attempts_fail outcome st remaining ->
  wait_loop outcome remaining st
  = (inl could_not_connect,
     State (session st) (attempts st + remaining) (slept st ++ replicate remaining 5)).
Proof.
  induction remaining as [|remaining IH]; intros st Hfail.
  - simpl. rewrite app_nil_r, Nat.add_0_r. destruct st; reflexivity.
  - simpl. destruct (Hfail 0%nat ltac:(lia)) as [e He]. rewrite Nat.add_0_r in He.
    rewrite He, IH.
    + simpl. rewrite <- app_assoc. simpl. do 2 f_equal. lia.
    + intros i Hi. cbn [attempts]. replace (S (attempts st) + i)%nat
        with (attempts st + S i)%nat by lia. apply Hfail. lia.
Qed.

(** X22: [wait_for_cassandra] returns at the first of its 20 attempts that
    succeeds, having slept 5 seconds after each failed one; when all 20
    fail it has slept 20 times, also after the last attempt, and raises
    "Could not connect to Cassandra" whatever the attempts raised. *)
Theorem wait_for_cassandra_outcomes outcome st :
  (forall k,
      next_attempts_fail outcome st k ->
      outcome (attempts st + k)%nat = None ->
      (k < 20)%nat ->
      wait_for_cassandra outcome st
      = (inr tt, State true (attempts st + k + 1) (slept st ++ replicate k 5)))
  /\ (next_attempts_fail outcome st 20 ->
      wait_for_cassandra outcome st
      = (inl could_not_connect,
         State (session st) (attempts st + 20) (slept st ++ replicate 20 5))).
Proof.
  split.
  - intros k Hfail Hok Hlt. apply wait_loop_succeeds; assumption.
  - intros Hfail. apply (wait_loop_gives_up outcome 20 st Hfail).
Qed.

Lemma connect_loop_bounded outcome retries delay : forall remaining attempt st,
  attempt + Z.of_nat remaining = retries + 1 ->
  let res := connect_loop outcome retries delay remaining attempt st in
  (attempts res.2 <= attempts st + remaining)%nat
  /\ (length (slept res.2) <= length (slept st) + (remaining - 1))%nat
  /\ ((1 <= remaining)%nat -> res.1 = inr tt -> session res.2 = true)
  /\ (session st = true -> session res.2 = true).
Proof.
  induction remaining as [|remaining IH]; intros attempt st Hinv; simpl.
  - repeat split; try lia. auto.
  - destruct (outcome (attempts st)) as [e|]; simpl.
    + case_decide as Hlt; simpl.
      * assert (Hrem : (1 <= remaining)%nat) by lia.
        destruct (IH (attempt + 1)
                    (State (session st) (S (attempts st)) (slept st ++ [delay]))
                    ltac:(lia)) as (Hatt & Hsl & Hses & Hkeep).
        simpl in *. rewrite length_app in Hsl. simpl in Hsl.
        repeat split; (lia || auto).
      * repeat split; try lia; auto; discriminate.
    + repeat split; (lia || auto).
Qed.

(** X21: Whatever the server does, [connect] makes at most [retries] attempts
    and sleeps at most [retries - 1] times; if it returns normally after
    at least one attempt was allowed, a session is set, and it never
    drops a session it had. With [retries] below 1 the loop body never
    runs: [connect] returns normally without having tried, so without a
    session. *)
Theorem connect_is_bounded outcome retries delay st :
  let res := connect outcome retries delay st in
  (attempts res.2 <= attempts st + Z.to_nat retries)%nat
  /\ (length (slept res.2) <= length (slept st) + (Z.to_nat retries - 1))%nat
  /\ (1 <= retries -> res.1 = inr tt -> session res.2 = true)
  /\ (session st = true -> session res.2 = true)
  /\ (retries <= 0 -> res = (inr tt, st)).
Proof.
  unfold connect.
  destruct (Z_le_gt_dec retries 0) as [Hle|Hgt].
  - replace (Z.to_nat retries) with 0%nat by lia. simpl.
    repeat split; (lia || auto).
  - destruct (connect_loop_bounded outcome retries delay (Z.to_nat retries) 1 st
                ltac:(lia)) as (Hatt & Hsl & Hses & Hkeep).
    repeat split; try assumption; [intros _; apply Hses|]; lia.
Qed.

Lemma wait_loop_bounded outcome : forall remaining st,
  let res := wait_loop outcome remaining st in
  (attempts res.2 <= attempts st + remaining)%nat
  /\ (length (slept res.2) <= length (slept st) + remaining)%nat
  /\ (res.1 = inr tt -> session res.2 = true)
  /\ (res.1 = inr tt \/ res.1 = inl could_not_connect).
Proof.
  induction remaining as [|remaining IH]; intros st; simpl.
  - repeat split; try lia; [discriminate|auto].
  - destruct (outcome (attempts st)) as [e|]; simpl.
    + destruct (IH (State (session st) (S (attempts st)) (slept st ++ [5])))
        as (Hatt & Hsl & Hses & Hres).
      simpl in *. rewrite length_app in Hsl. simpl in Hsl.
      repeat split; (lia || auto).
    + repeat split; (lia || auto).
Qed.

(** X23: Whatever the server does, [wait_for_cassandra] makes at most 20
    attempts and sleeps at most 20 times; it either returns with a
    connection or raises "Could not connect to Cassandra", never the
    error of an attempt. *)
Theorem wait_for_cassandra_is_bounded outcome st :
  let res := wait_for_cassandra outcome st in
  (attempts res.2 <= attempts st + 20)%nat
  /\ (length (slept res.2) <= length (slept st) + 20)%nat
  /\ (res.1 = inr tt -> session res.2 = true)
  /\ (res.1 = inr tt \/ res.1 = inl could_not_connect).
Proof. apply (wait_loop_bounded outcome 20 st). Qed.

End ConnectionFacts.

(** ** One list entry per summary row *)

Lemma length_filter_map_to_list {V} (m : gmap (Z * datetime * Z) V)
    (P : Z * datetime * Z * V -> Prop) `{!forall kv, Decision (P kv)} :
  length (filter P (map_to_list m)) = size (filter P m).
Proof.
  induction m as [|k v m Hk IH] using map_ind.
  - rewrite map_to_list_empty, map_filter_empty, map_size_empty. reflexivity.
  - rewrite map_to_list_insert by exact Hk.
    rewrite filter_cons, map_filter_insert.
    case_decide as HP.
    + simpl. rewrite IH, map_size_insert_None; [reflexivity|].
      apply map_lookup_filter_None_2. auto.
    + rewrite delete_id by exact Hk. exact IH.
Qed.

Lemma length_filter_fmap {A B} (f : A -> B) (P : B -> Prop)
    `{!forall b, Decision (P b)} (l : list A) :
  length (filter P (f <$> l)) = length (filter (fun a => P (f a)) l).
Proof.
  induction l as [|a l IH]; [reflexivity|].
  rewrite fmap_cons, !filter_cons. case_decide; simpl; rewrite IH; reflexivity.
Qed.

Lemma summary_partition_count d uid cid :
  length (filter (fun row => sr_conversation_id row = cid) (summary_partition d uid))
  = summary_count d uid cid.
Proof.
  unfold summary_partition, summary_count, summary_rows_of.
  rewrite merge_sort_Permutation, list_filter_filter, length_filter_fmap.
  rewrite length_filter_map_to_list. f_equal.
  apply map_filter_ext. intros [[u t] c] [o b] _. simpl. tauto.
Qed.

Section list_entries.
Context `{Runtime}.
Import Schemas.

(** X12: The conversation list is not grouped by conversation: when the list
    is complete ([has_more] false), a conversation appears in it once for
    every summary row the user holds for it. *)
Theorem conversation_listed_once_per_summary_row uid page limit w r w' cid :
  ConversationController.get_user_conversations uid page limit w = (inr r, w') ->
  pc_has_more r = false ->
  length (filter (fun item => li_conversation_id item = cid) (conversations r))
  = summary_count (tables w) uid cid.
Proof.
  intros Hrun Hno.
  apply get_user_conversations_inr in Hrun as [Hpos ->]. simpl in *.
  apply bool_decide_eq_false in Hno. rewrite length_fmap in Hno.
  rewrite take_short by lia.
  rewrite !length_filter_fmap. simpl.
  apply summary_partition_count.
Qed.
End list_entries.

(** ** The newest messages before a time *)

Section before_timestamp.
Context `{Runtime}.
Import Schemas.

(** X11: [get_messages_before_timestamp] keeps the newest of the eligible
    messages, those stored with a time below the whole milliseconds of
    the given time: such a message is either on the page or comes, in the
    order newest first, after every message of the page; a message stored
    in the very millisecond of the given time is never on the page. *)
Theorem before_timestamp_keeps_the_newest cid before page limit w r w' :
  MessageController.get_messages_before_timestamp cid before page limit w = (inr r, w') ->
  exists rows,
    messages r = make_MessageResponse <$> (MessageModel.message_dict_of <$> rows)
    /\ StronglySorted message_clustering rows
    /\ (forall row,
          stored_message (tables w) cid row ->
          mr_created_at row < cql_encode_datetime before ->
          row ∈ rows \/ Forall (fun shown => message_clustering shown row) rows)
    /\ (forall row,
          mr_created_at row = cql_encode_datetime before -> row ∉ rows).
Proof.
  intros Hrun.
  destruct (get_messages_before_timestamp_inr _ _ _ _ _ _ _ Hrun) as [Hpos Hok].
  rewrite get_messages_before_timestamp_run in Hrun by assumption.
  injection Hrun as <- _. simpl.
  set (eligible := filter (fun r => mr_created_at r < cql_encode_datetime before)
                     (message_partition (tables w) cid)).
  assert (Hsorted : StronglySorted message_clustering eligible).
  { unfold eligible. pose proof (message_partition_sorted (tables w) cid) as Hs.
    induction Hs as [|x l Hs IH Hall]; [constructor|].
    rewrite filter_cons. case_decide; [|exact IH].
    constructor; [exact IH|].
    apply Forall_forall. intros y Hy. apply list_elem_of_filter in Hy as [_ Hy].
    rewrite Forall_forall in Hall. auto. }
  exists (take (Z.to_nat limit) eligible).
  split; [reflexivity|]. split; [apply StronglySorted_take; exact Hsorted|].
  split.
  - intros row Hrow Hlt.
    assert (Hin : row ∈ eligible).
    { apply list_elem_of_filter. split; [exact Hlt|].
      apply message_partition_complete. exact Hrow. }
    rewrite <- (take_drop (Z.to_nat limit) eligible) in Hin, Hsorted.
    apply elem_of_app in Hin as [Hin|Hin]; [left; exact Hin|right].
    apply Forall_forall. intros shown Hshown.
    exact (StronglySorted_app_1_elem_of _ _ _ _ _ Hsorted Hshown Hin).
  - intros row Heq Hin. apply subseteq_take in Hin.
    apply list_elem_of_filter in Hin as [Hlt _]. lia.
Qed.
End before_timestamp.

(** ** A resolution that stops half way *)

Section interrupted_resolution.
Context `{Runtime}.

(** X18: When the store fails the last write of a resolution, the lookup row of
    the pair is already stored and the metadata row is not. Resolution of
    the pair then succeeds from the lookup row, but the controller, which
    reads the metadata back, fails for this pair. *)
Theorem interrupted_resolution_blocks_the_pair a b e w :
  let lo := (canonical a b).1 in
  let hi := (canonical a b).2 in
  let cid := derived_id (clock w (S (ticks w))) lo hi in
  let w1 := snd (ConversationModel.create_or_get_conversation a b w) in
  user_conversations_lookup (tables w) !! canonical a b = None ->
  faults w (length (log w)) = None ->
  faults w (S (length (log w))) = None ->
  faults w (S (S (length (log w)))) = Some e ->
  fst (ConversationModel.create_or_get_conversation a b w) = inl e
  /\ user_conversations_lookup (tables w1) !! canonical a b = Some cid
  /\ conversation_metadata (tables w1) = conversation_metadata (tables w)
  /\ (conversation_metadata (tables w) !! cid = None ->
      next_statements_succeed w1 2 ->
      fst (ConversationModel.create_or_get_conversation a b w1) = inr cid
      /\ fst (ConversationController.create_or_get_conversation a b w1)
         = inl (failed_with "Failed to create conversation: "
                  (HTTPException HTTP_404_NOT_FOUND
                     "Failed to retrieve conversation after creation"))).
Proof.
  intros lo hi cid w1 Hnone Hf0 Hf1 Hf2.
  assert (Hrun : ConversationModel.create_or_get_conversation a b w
                 = (inl e,
                    World (set_lookup (tables w)
                             (<[(lo, hi) := cid]> (user_conversations_lookup (tables w))))
                      (clock w) (micros w) (S (S (ticks w))) (uuids w) (drawn w) (faults w)
                      (log w ++ [SelectLookup lo hi; InsertLookup lo hi cid;
                                 InsertMetadata cid lo hi (clock w (ticks w))]))).
  { rewrite create_or_get_conversation_unfold. subst lo hi cid.
    destruct (canonical a b) as [lo hi]. simpl in *.
    unfold bind at 1. rewrite (execute_run _ _ Hf0). simpl. rewrite Hnone.
    unfold bind at 1. simpl. unfold bind at 1. simpl.
    unfold bind at 1. rewrite execute_run by (simpl; rewrite length_snoc; exact Hf1).
    simpl.
    unfold bind at 1. rewrite (execute_fault _ _ e)
      by (simpl; rewrite !length_snoc; exact Hf2).
    unfold logged, derived_id. simpl. rewrite <- !app_assoc. reflexivity. }
  assert (Hrow : user_conversations_lookup (tables w1) !! canonical a b = Some cid).
  { subst w1. rewrite Hrun. simpl. subst lo hi.
    destruct (canonical a b). simpl. apply lookup_insert_eq. }
  subst w1. rewrite Hrun in *. simpl in *.
  split; [reflexivity|]. split; [exact Hrow|]. split; [reflexivity|].
  intros Hmeta Hok.
  match goal with
  | |- context [ConversationModel.create_or_get_conversation a b ?x] =>
      set (w1 := x) in *
  end.
  assert (Hres : ConversationModel.create_or_get_conversation a b w1
                 = (inr cid, logged w1 (SelectLookup lo hi) (tables w1))).
  { apply create_or_get_conversation_existing; [exact Hrow|].
    apply Hok. lia. }
  split; [rewrite Hres; reflexivity|].
  unfold ConversationController.create_or_get_conversation.
  rewrite try_except_failed_with.
  erewrite bind_run_inr by exact Hres.
  unfold ConversationModel.get_conversation.
  unfold bind at 1. unfold bind at 1.
  rewrite execute_run by (simpl; apply Hok; simpl; rewrite length_snoc; lia).
  simpl. rewrite Hmeta. reflexivity.
Qed.
End interrupted_resolution.

(** ** The further properties at concrete inputs *)

Lemma hello_run :
  MessageModel.create_message (H := sample_runtime) 5 9 "hello" None
    (fresh_world 1000 1 no_faults)
  = (inr (MessageModel.MessageDict "0" 6011 5 9 "hello" "T1000"), hello_sent).
Proof.
  unfold hello_sent.
  apply (result_run (MessageModel.create_message (H := sample_runtime) 5 9 "hello" None)
           (fresh_world 1000 1 no_faults)).
  vm_compute. reflexivity.
Qed.

Lemma again_run :
  MessageModel.create_message (H := sample_runtime) 9 5 "again" None hello_sent
  = (inr (MessageModel.MessageDict "1" 6011 9 5 "again" "T1003"), sample_history).
Proof.
  unfold sample_history. fold hello_sent.
  apply (result_run (MessageModel.create_message (H := sample_runtime) 9 5 "again" None)
           hello_sent).
  vm_compute. reflexivity.
Qed.

Lemma sends_share_one_conversation_witness :
  MessageModel.conversation_id (MessageModel.MessageDict "1" 6011 9 5 "again" "T1003")
  = MessageModel.conversation_id (MessageModel.MessageDict "0" 6011 5 9 "hello" "T1000")
  /\ user_conversations_lookup (tables sample_history)
     = user_conversations_lookup (tables hello_sent).
Proof.
  destruct (sends_share_one_conversation (H := sample_runtime) 5 9 "hello" "again"
              _ _ _ _ _ hello_run again_run) as (Hcid & _ & Hlookup).
  split; assumption.
Defined.

Lemma send_adds_one_message_witness :
  messages_by_conversation (tables hello_sent)
  = <[(6011, 1000, 0%N) := MessageCols 5 9 "hello"]> ∅
  /\ size (messages_by_conversation (tables hello_sent)) = 1%nat.
Proof.
  destruct (send_adds_one_message (H := sample_runtime) 5 9 "hello" None
              _ _ _ hello_run) as (Heq & _ & Hsize).
  split; [exact Heq|]. apply Hsize. reflexivity.
Defined.

Lemma precise_run :
  MessageModel.create_message (H := sample_runtime) 5 9 "hello" None precise_world
  = (inr (MessageModel.MessageDict "0" 6011 5 9 "hello" "T1000.456"), precise_sent).
Proof.
  unfold precise_sent.
  apply (result_run (MessageModel.create_message (H := sample_runtime) 5 9 "hello" None)
           precise_world).
  vm_compute. reflexivity.
Qed.

Lemma sent_message_is_listed_first_witness :
  exists r w'',
    MessageController.get_conversation_messages (H := sample_runtime) 6011 1 10 precise_sent
    = (inr r, w'')
    /\ head (Schemas.messages r)
       = Some {| Schemas.message_id := "0";
                 Schemas.sender_id := 5;
                 Schemas.receiver_id := 9;
                 Schemas.conversation_id := 6011;
                 Schemas.content := "hello";
                 Schemas.timestamp := "T1000" |}.
Proof.
  apply (sent_message_is_listed_first (H := sample_runtime) 5 9 "hello" None
           _ _ _ 10 precise_run).
  - intros k v Hk. unfold precise_world, empty_db in Hk. simpl in Hk.
    rewrite lookup_empty in Hk. discriminate.
  - reflexivity.
  - lia.
Defined.

Lemma sent_message_tops_conversation_list_witness :
  exists r w'',
    ConversationController.get_user_conversations (H := sample_runtime) 9 1 10 precise_sent
    = (inr r, w'')
    /\ head (Schemas.conversations r)
       = Some {| Schemas.li_conversation_id := 6011;
                 Schemas.other_user_id := 5;
                 Schemas.li_last_updated := "T1000";
                 Schemas.last_message := "hello" |}.
Proof.
  apply (sent_message_tops_conversation_list (H := sample_runtime) 5 9 "hello" None
           _ _ _ 9 1 10 precise_run).
  - right. reflexivity.
  - intros k v Hk. unfold precise_world, empty_db in Hk. simpl in Hk.
    rewrite lookup_empty in Hk. discriminate.
  - reflexivity.
  - lia.
Defined.

Lemma page_is_a_slice_witness :
  exists r w',
    MessageController.get_conversation_messages (H := sample_runtime) 6011 2 1
      sample_history = (inr r, w')
    /\ Schemas.messages r
       = Schemas.make_MessageResponse <$>
           (MessageModel.message_dict_of (H := sample_runtime) <$>
              take 1 (drop 1 (message_partition (tables sample_history) 6011)))
    /\ (Schemas.pm_has_more r = true
        <-> 2 * 1 <= Z.of_nat (length (message_partition (tables sample_history) 6011))).
Proof.
  apply (page_is_a_slice (H := sample_runtime) 6011 2 1 sample_history);
    [reflexivity|lia|lia].
Defined.

Lemma nonpositive_page_or_limit_fails_witness :
  exists detail,
    fst (MessageController.get_conversation_messages (H := sample_runtime) 6011 0 10
           sample_history)
    = inl (HTTPException HTTP_500_INTERNAL_SERVER_ERROR detail).
Proof.
  apply (proj1 (nonpositive_page_or_limit_fails (H := sample_runtime) sample_history)
           6011 0 10).
  lia.
Defined.

Lemma no_more_means_complete_witness :
  exists r w',
    MessageController.get_messages_before_timestamp (H := sample_runtime) 6011
      (Instant 1003 999) 1 5
      sample_history = (inr r, w')
    /\ Schemas.make_MessageResponse
         (MessageModel.message_dict_of (H := sample_runtime)
            (MessageRow 6011 1000 0%N 5 9 "hello"))
       ∈ Schemas.messages r.
Proof.
  destruct (MessageController.get_messages_before_timestamp (H := sample_runtime)
              6011 (Instant 1003 999) 1 5 sample_history) as [[e|r] w'] eqn:Hrun;
    [exfalso; vm_compute in Hrun; discriminate|].
  exists r, w'. split; [reflexivity|].
  apply (proj1 (no_more_means_complete (H := sample_runtime) sample_history)
           6011 (Instant 1003 999) 1 5 r w' Hrun).
  - vm_compute in Hrun. injection Hrun as <- _. reflexivity.
  - split; [reflexivity|]. vm_compute. reflexivity.
  - simpl. lia.
Defined.

Lemma new_conversation_response_witness :
  exists w',
    ConversationController.create_or_get_conversation (H := sample_runtime) 9 5
      (fresh_world 1000 1 no_faults)
    = (inr {| Schemas.c_conversation_id := 6010;
              Schemas.participant_ids := [5; 9];
              Schemas.created_at := "T1000";
              Schemas.last_updated := "T1000" |}, w')
    /\ issued_since [] w'
       = [SelectLookup 5 9; InsertLookup 5 9 6010; InsertMetadata 6010 5 9 1000;
          SelectMetadata 6010].
Proof.
  apply (new_conversation_response (H := sample_runtime) 9 5 (fresh_world 1000 1 no_faults)).
  - reflexivity.
  - intros n _. reflexivity.
Defined.

Lemma get_conversation_outcomes_witness :
  fst (ConversationController.get_conversation (H := sample_runtime) 77 sample_history)
  = inl (HTTPException HTTP_404_NOT_FOUND "Conversation not found")
  /\ fst (ConversationController.get_conversation (H := sample_runtime) 6011 sample_history)
     = inr {| Schemas.c_conversation_id := 6011;
              Schemas.participant_ids := [5; 9];
              Schemas.created_at := "T1001";
              Schemas.last_updated := "T1003" |}.
Proof.
  split.
  - apply (proj1 (get_conversation_outcomes (H := sample_runtime) 77 sample_history));
      vm_compute; reflexivity.
  - apply (proj2 (proj2 (get_conversation_outcomes (H := sample_runtime) 6011
                           sample_history)) 5 9 1001 (Some 1003) (Some "again"));
      vm_compute; reflexivity.
Defined.

Lemma send_to_given_conversation_witness :
  let w' := run (MessageModel.create_message (H := sample_runtime) 9 5 "again" (Some 6011))
              precise_sent in
  exists d,
    fst (ConversationModel.get_conversation (H := sample_runtime) 6011 w') = inr (Some d)
    /\ ConversationModel.created_at d = "T1001"
    /\ ConversationModel.last_updated d = "T1003".
Proof.
  intros w'.
  assert (Hrun : MessageModel.create_message (H := sample_runtime) 9 5 "again" (Some 6011)
                   precise_sent
                 = (inr (MessageModel.MessageDict "1" 6011 9 5 "again" "T1003.456"), w'))
    by (apply (result_run (MessageModel.create_message (H := sample_runtime) 9 5 "again"
                             (Some 6011)) precise_sent); vm_compute; reflexivity).
  pose proof (send_to_given_conversation (H := sample_runtime) 9 5 "again" 6011
                precise_sent _ w' Hrun eq_refl) as Hget.
  change (conversation_metadata (tables precise_sent) !! 6011 ≫= md_created_at)
    with (Some 1001) in Hget.
  destruct Hget as (d & Hd & Hcreated & Hlast & _).
  exists d. auto.
Defined.


Lemma failed_send_is_not_rolled_back_witness :
  let w := run (MessageModel.create_message (H := sample_runtime) 5 9 "hello" None)
             (fresh_world 1000 1 tenth_statement_fails) in
  let md := {| Schemas.mcr_content := "again";
               Schemas.mcr_sender_id := 9; Schemas.mcr_receiver_id := 5 |} in
  exists w',
    MessageController.send_message (H := sample_runtime) md w
    = (inl (HTTPException 500 "Failed to send message: write timeout"), w')
    /\ messages_by_conversation (tables w')
       = <[(6011, 1003, 1%N) := MessageCols 9 5 "again"]>
           (messages_by_conversation (tables w))
    /\ conversations_by_user (tables w') = conversations_by_user (tables w).
Proof.
  intros w md.
  apply (proj1 (failed_send_is_not_rolled_back (H := sample_runtime) md 6011
                  (DriverError TransientStorage "write timeout") w
                  ltac:(vm_compute; reflexivity) ltac:(vm_compute; reflexivity)
                  ltac:(vm_compute; reflexivity))).
  vm_compute. reflexivity.
Defined.

Lemma before_timestamp_keeps_the_newest_witness :
  exists r w' rows,
    MessageController.get_messages_before_timestamp (H := sample_runtime) 6011
      (Instant 2000 250) 1 1
      sample_history = (inr r, w')
    /\ Schemas.messages r
       = Schemas.make_MessageResponse <$>
           (MessageModel.message_dict_of (H := sample_runtime) <$> rows)
    /\ (MessageRow 6011 1000 0%N 5 9 "hello" ∈ rows
        \/ Forall (fun shown => message_clustering shown (MessageRow 6011 1000 0%N 5 9 "hello"))
             rows).
Proof.
  destruct (MessageController.get_messages_before_timestamp (H := sample_runtime)
              6011 (Instant 2000 250) 1 1 sample_history) as [[e|r] w'] eqn:Hrun;
    [exfalso; vm_compute in Hrun; discriminate|].
  destruct (before_timestamp_keeps_the_newest (H := sample_runtime) 6011 (Instant 2000 250) 1 1
              sample_history r w' Hrun) as (rows & Hmsgs & _ & Hnewest & _).
  exists r, w', rows. split; [reflexivity|]. split; [exact Hmsgs|].
  apply Hnewest.
  - split; [reflexivity|]. vm_compute. reflexivity.
  - simpl. lia.
Defined.

Lemma interrupted_resolution_blocks_the_pair_witness :
  fst (ConversationModel.create_or_get_conversation 5 9
         (fresh_world 1000 1 third_statement_times_out))
  = inl (DriverError TransientStorage "write timeout")
  /\ user_conversations_lookup (tables half_created) !! (5, 9) = Some 6010
  /\ fst (ConversationController.create_or_get_conversation (H := sample_runtime) 5 9
            half_created)
     = inl (HTTPException 500
              "Failed to create conversation: 404: Failed to retrieve conversation after creation").
Proof.
  destruct (interrupted_resolution_blocks_the_pair (H := sample_runtime) 5 9
              (DriverError TransientStorage "write timeout")
              (fresh_world 1000 1 third_statement_times_out)
              eq_refl eq_refl eq_refl eq_refl) as (Hfail & Hrow & _ & Hblocked).
  split; [exact Hfail|]. split; [exact Hrow|].
  apply Hblocked.
  - reflexivity.
  - intros n Hn. change (3 <= n < 3 + 2)%nat in Hn.
    change (third_statement_times_out n = None).
    unfold third_statement_times_out. rewrite decide_False by lia. reflexivity.
Defined.

Lemma conversation_listed_once_per_summary_row_witness :
  exists r w',
    ConversationController.get_user_conversations (H := sample_runtime) 5 1 10
      sample_history = (inr r, w')
    /\ length (filter (fun item => Schemas.li_conversation_id item = 6011)
                 (Schemas.conversations r)) = 2%nat.
Proof.
  destruct (ConversationController.get_user_conversations (H := sample_runtime) 5 1 10
              sample_history) as [[e|r] w'] eqn:Hrun;
    [exfalso; vm_compute in Hrun; discriminate|].
  exists r, w'. split; [reflexivity|].
  rewrite (conversation_listed_once_per_summary_row (H := sample_runtime) 5 1 10
             sample_history r w' 6011 Hrun).
  - vm_compute. reflexivity.
  - vm_compute in Hrun. injection Hrun as <- _. reflexivity.
Defined.



Lemma wait_for_cassandra_outcomes_witness :
  Connection.wait_for_cassandra first_two_refused Connection.initial
  = (inr tt, Connection.State true 3 [5; 5])
  /\ Connection.wait_for_cassandra always_refused Connection.initial
     = (inl Connection.could_not_connect,
        Connection.State false 20 (replicate 20 5)).
Proof.
  destruct (ConnectionFacts.wait_for_cassandra_outcomes first_two_refused
              Connection.initial) as [Hfirst _].
  destruct (ConnectionFacts.wait_for_cassandra_outcomes always_refused
              Connection.initial) as [_ Hnone].
  split.
  - apply (Hfirst 2%nat); [|reflexivity|lia].
    intros i Hi. unfold first_two_refused. simpl. rewrite decide_True by lia. eauto.
  - apply Hnone. intros i _. unfold always_refused. eauto.
Defined.

Lemma connect_is_bounded_witness :
  let res := Connection.connect first_two_refused 30 5 Connection.initial in
  (Connection.attempts res.2 <= 30)%nat
  /\ (length (Connection.slept res.2) <= 29)%nat
  /\ Connection.session res.2 = true.
Proof.
  destruct (ConnectionFacts.connect_is_bounded first_two_refused 30 5 Connection.initial)
    as (Hatt & Hsl & Hses & _ & _).
  split; [exact Hatt|]. split; [exact Hsl|].
  apply Hses; [lia|reflexivity].
Defined.

Lemma wait_for_cassandra_is_bounded_witness :
  let res := Connection.wait_for_cassandra always_refused Connection.initial in
  (Connection.attempts res.2 <= 20)%nat
  /\ (length (Connection.slept res.2) <= 20)%nat
  /\ res.1 = inl Connection.could_not_connect.
Proof.
  destruct (ConnectionFacts.wait_for_cassandra_is_bounded always_refused
              Connection.initial) as (Hatt & Hsl & _ & Hres).
  split; [exact Hatt|]. split; [exact Hsl|].
  destruct Hres as [Hres|Hres]; [exfalso; vm_compute in Hres; discriminate Hres|exact Hres].
Defined.

Lemma lookup_canonical_empty : lookup_canonical empty_db.
Proof. intros a b cid Hrow. simpl in Hrow. rewrite lookup_empty in Hrow. discriminate. Qed.

Lemma lookup_keys_stay_canonical_witness : lookup_canonical (tables hello_sent).
Proof.
  apply (proj2 (lookup_keys_stay_canonical (H := sample_runtime)) 5 9 "hello" None
           (fresh_world 1000 1 no_faults)).
  apply lookup_canonical_empty.
Defined.

Lemma lookup_rows_are_never_rewritten_witness :
  user_conversations_lookup (tables sample_history) !! (5, 9) = Some 6011.
Proof.
  apply (proj2 (lookup_rows_are_never_rewritten (H := sample_runtime) (5, 9) 6011)
           9 5 "again" None hello_sent).
  vm_compute. reflexivity.
Defined.
